(** * BFPO address scraper: a shallow embedding of [main.py]

    The development follows the layout of the program:

    - [Py]: the Python string primitives the program calls
      ([str.upper], [str.startswith], [in], [str.replace], [str.strip],
      [str.isdigit], [int], [str.title]), on ASCII text;
    - [Exn]: exceptions, [try]/[except] and the state-and-exception monad
      in which the methods of the scraper run;
    - [CountryCodeResolver]: the class of the same name, over an abstract
      [pycountry] database;
    - [BFPOScraperSimple]: the scraper class: [_add_address], the nine
      section parsers, the FCDO spreadsheet parser, [generate_xml] and [run].

    Text is modelled by [string] (one [ascii] per character).  The case
    mappings and the character classes are those of Python on the ASCII
    range; characters above 127 are left alone by the case mappings and
    belong to no class. *)

From Stdlib Require Import Ascii String List ZArith Lia Bool.
From Stdlib Require Import Permutation Sorted DecimalString DecimalNat.
From stdpp Require Import base gmap strings list.

Set Warnings "-register-all".

(* ===================================================================== *)
(** * Python string primitives                                            *)
(* ===================================================================== *)

Module Py.

Definition code (c : ascii) : nat := nat_of_ascii c.

Definition is_upper (c : ascii) : bool := (65 <=? code c)%nat && (code c <=? 90)%nat.
Definition is_lower (c : ascii) : bool := (97 <=? code c)%nat && (code c <=? 122)%nat.
Definition is_cased (c : ascii) : bool := is_upper c || is_lower c.
Definition is_digit (c : ascii) : bool := (48 <=? code c)%nat && (code c <=? 57)%nat.

  (** [str.isspace] on the ASCII range: TAB, LF, VT, FF, CR, the four
      separators FS, GS, RS, US and the space. *)
Definition is_space (c : ascii) : bool :=
    ((9 <=? code c)%nat && (code c <=? 13)%nat)
    || ((28 <=? code c)%nat && (code c <=? 32)%nat).

Definition upper_char (c : ascii) : ascii :=
    if is_lower c then ascii_of_nat (code c - 32) else c.
Definition lower_char (c : ascii) : ascii :=
    if is_upper c then ascii_of_nat (code c + 32) else c.

Fixpoint map_chars (f : ascii -> ascii) (s : string) : string :=
    match s with
    | EmptyString => EmptyString
    | String c s' => String (f c) (map_chars f s')
    end.

  (** [s.upper()] and [s.lower()] *)
Definition upper : string -> string := map_chars upper_char.
Definition lower : string -> string := map_chars lower_char.

  (** [s.title()]: a cased character that follows an uncased one is put in
      upper case, one that follows a cased one in lower case. *)
Fixpoint title_from (previous_is_cased : bool) (s : string) : string :=
    match s with
    | EmptyString => EmptyString
    | String c s' =>
        String (if previous_is_cased then lower_char c else upper_char c)
               (title_from (is_cased c) s')
    end.
Definition title : string -> string := title_from false.

  (** The truth value of a string: [if s:] *)
Definition truthy (s : string) : bool :=
    match s with EmptyString => false | String _ _ => true end.

  (** The truth value of an optional string ([None] or a string). *)
Definition truthy_opt (o : option string) : bool :=
    match o with None => false | Some s => truthy s end.

  (** [s.startswith(p)] *)
Definition startswith (s p : string) : bool := String.prefix p s.

  (** [sub in s] *)
Fixpoint contains (sub s : string) : bool :=
    String.prefix sub s
    || match s with
       | EmptyString => false
       | String _ s' => contains sub s'
       end.

  (** [s.replace(old, new)] for a non-empty [old]: the occurrences of [old]
      are replaced from left to right, without overlap.  [skip] counts the
      characters of a matched occurrence still to be dropped. *)
Fixpoint replace_from (old new : string) (skip : nat) (s : string) : string :=
    match s with
    | EmptyString => EmptyString
    | String c s' =>
        match skip with
        | S k => replace_from old new k s'
        | O =>
            if String.prefix old s
            then new +:+ replace_from old new (String.length old - 1) s'
            else String c (replace_from old new 0 s')
        end
    end.

  (** With an empty [old], Python inserts [new] before every character and
      at the end. *)
Fixpoint intersperse (new s : string) : string :=
    match s with
    | EmptyString => new
    | String c s' => new +:+ String c (intersperse new s')
    end.

Definition replace (s old new : string) : string :=
    match old with
    | EmptyString => intersperse new s
    | String _ _ => replace_from old new 0 s
    end.

  (** [s.lstrip()], [s.rstrip()], [s.strip()] *)
Fixpoint lstrip (s : string) : string :=
    match s with
    | EmptyString => EmptyString
    | String c s' => if is_space c then lstrip s' else s
    end.

Fixpoint rstrip (s : string) : string :=
    match s with
    | EmptyString => EmptyString
    | String c s' =>
        match rstrip s' with
        | EmptyString => if is_space c then EmptyString else String c EmptyString
        | r => String c r
        end
    end.

Definition strip (s : string) : string := rstrip (lstrip s).

Fixpoint all_chars (p : ascii -> bool) (s : string) : bool :=
    match s with
    | EmptyString => true
    | String c s' => p c && all_chars p s'
    end.

  (** [s.isdigit()]: at least one character, and all of them digits. *)
Definition isdigit (s : string) : bool := truthy s && all_chars is_digit s.

  (** [int(s)] on a string of digits; Python integers are unbounded. *)
Fixpoint int_from (acc : Z) (s : string) : Z :=
    match s with
    | EmptyString => acc
    | String c s' => int_from (10 * acc + Z.of_nat (code c - 48)) s'
    end.
Definition int (s : string) : Z := int_from 0 s.

  (** [str(n)] for a natural number, as in the f-string [f'Location.{i}']. *)
Definition str_of_nat (n : nat) : string := NilZero.string_of_uint (Nat.to_uint n).

End Py.

(* ===================================================================== *)
(** * Exceptions and the monad of the scraper's methods                   *)
(* ===================================================================== *)

Module Exn.

  (** The exception classes the program names or can meet.  [Exception] is
      the base class; [KeyError] and [IndexError] derive from
      [LookupError]. *)
Inductive exn : Type :=
  | Exception
  | LookupError
  | KeyError
  | IndexError
  | AttributeError
  | ValueError
  | RequestException
  | ExpatError.

Definition exn_eqb (a b : exn) : bool :=
    match a, b with
    | Exception, Exception | LookupError, LookupError | KeyError, KeyError
    | IndexError, IndexError | AttributeError, AttributeError
    | ValueError, ValueError | RequestException, RequestException
    | ExpatError, ExpatError => true
    | _, _ => false
    end.

  (** [isinstance e cls]: an exception of class [e] is caught by
      [except cls]. *)
Definition isinstance (e cls : exn) : bool :=
    match cls with
    | Exception => true
    | LookupError =>
        match e with LookupError | KeyError | IndexError => true | _ => false end
    | _ => exn_eqb e cls
    end.

  (** [except (c1, c2, ...)] *)
Definition caught_by (classes : list exn) (e : exn) : bool :=
    existsb (isinstance e) classes.

Inductive result (A : Type) : Type :=
  | Ok (a : A)
  | Raise (e : exn).
Arguments Ok {A} a.
Arguments Raise {A} e.

  (** A method runs on a state [S]; an exception leaves the state as it was
      when it was raised. *)
Definition M (S A : Type) : Type := S -> result A * S.

Definition ret {S A} (a : A) : M S A := fun s => (Ok a, s).

Definition bind {S A B} (m : M S A) (k : A -> M S B) : M S B :=
    fun s =>
      match m s with
      | (Ok a, s') => k a s'
      | (Raise e, s') => (Raise e, s')
      end.

Definition raise {S A} (e : exn) : M S A := fun s => (Raise e, s).

  (** The outcome of a call into a library. *)
Definition call {S A} (r : result A) : M S A := fun s => (r, s).

  (** [try: body  except classes: handler] *)
Definition try_except {S A} (body : M S A) (classes : list exn)
             (handler : exn -> M S A) : M S A :=
    fun s =>
      match body s with
      | (Ok a, s') => (Ok a, s')
      | (Raise e, s') => if caught_by classes e then handler e s' else (Raise e, s')
      end.

Definition modify {S} (f : S -> S) : M S unit := fun s => (Ok tt, f s).

Definition get_state {S} : M S S := fun s => (Ok s, s).

  (** Run a method on a part of the state. *)
Definition zoom {S T A} (getp : S -> T) (setp : T -> S -> S) (m : M T A) : M S A :=
    fun s => let (r, t) := m (getp s) in (r, setp t s).

  (** [for x in xs: body] *)
Fixpoint for_each {S A} (xs : list A) (body : A -> M S unit) : M S unit :=
    match xs with
    | [] => ret tt
    | x :: xs' => bind (body x) (fun _ => for_each xs' body)
    end.

End Exn.

Import Exn.

#[export] Instance M_ret {S} : MRet (M S) := fun A a => ret a.
#[export] Instance M_bind {S} : MBind (M S) := fun A B k m => bind m k.

(** What the program prints that the properties below speak of: its
    warnings and error reports.  (The banners, counts and statistics it also
    prints are left out.) *)
Inductive message : Type :=
| CouldNotMapCountry (country_name : string)
    (* "  Warning: Could not map country '...' to ISO code" *)
| CouldNotFindSection (title : string)
    (* "  Warning: Could not find ... section" *)
| ErrorScrapingGovUk (e : exn)
    (* "✗ Error scraping GOV.UK: ..." *)
| ErrorDownloadingFcdoOds (e : exn)
    (* "✗ Error downloading FCDO ODS: ..." *)
| ErrorParsingFcdoOds (e : exn)
    (* "✗ Error parsing FCDO ODS: ..." *)
| FcdoOdsFileNotFound (path : string)
    (* "✗ FCDO ODS file not found: ..." *)
| SkippingFcdoData.
    (* "⚠ Skipping FCDO data (file not available)" *)

Definition Stdout : Type := list message.

(** [print(...)] *)
Definition print (m : message) : M Stdout unit := modify (fun out => out ++ [m]).

(* ===================================================================== *)
(** * The [pycountry] database                                            *)
(* ===================================================================== *)

(** [pycountry] is a library: its catalogue is a parameter of the
    development.  A country record has the attribute the program reads. *)
Record Country : Type := { name : string; alpha_2 : string }.

(** The keyword of [pycountry.countries.get(...)]. *)
Inductive field : Type := by_name | by_common_name | by_alpha_2.

(** [get] returns a country, returns [None], or raises; [search_fuzzy]
    returns the ranked candidates or raises. *)
Record Pycountry : Type := {
  countries_get : field -> string -> result (option Country);
  countries_search_fuzzy : string -> result (list Country)
}.

(** The library raises what the program prepares for: [KeyError] or
    [AttributeError] from [get], a [LookupError] from [search_fuzzy]. *)
Definition well_behaved (db : Pycountry) : Prop :=
  (forall f s e, countries_get db f s = Raise e ->
                 caught_by [KeyError; AttributeError] e = true)
  /\ (forall s e, countries_search_fuzzy db s = Raise e ->
                  caught_by [LookupError] e = true).

(* ===================================================================== *)
(** * class CountryCodeResolver                                           *)
(* ===================================================================== *)

Module CountryCodeResolver.

  (** The dictionary literal, in its order. *)
Definition SPECIAL_CASES_items : list (string * string) :=
    [ ("Holland", "NL");
      ("USA", "US");
      ("Turkey", "TR");
      ("Falklands", "FK");
      ("Ascension", "AC");
      ("British Indian Ocean Territory", "IO");
      ("Africa", "AF") ].

Definition SPECIAL_CASES : gmap string string := list_to_map SPECIAL_CASES_items.

  (** [SPECIAL_CASES.values()] *)
Definition SPECIAL_CASES_values : list string := map snd SPECIAL_CASES_items.

Section WithDatabase.

Variable db : Pycountry.

    (** The body of one [try] block of [get_country_code]: [Some code] when
        the block returns from the function, [None] when control falls
        through to the next statement. *)
Definition try_get (f : field) (value : string) : M Stdout (option string) :=
      try_except
        (country ← call (countries_get db f value);
         match country with
         | Some c => ret (Some (alpha_2 c))
         | None => ret None
         end)
        [KeyError; AttributeError]
        (fun _ => ret None).

Definition try_search_fuzzy (country_name : string) : M Stdout (option string) :=
      try_except
        (countries ← call (countries_search_fuzzy db country_name);
         match countries with
         | c :: _ => ret (Some (alpha_2 c))
         | [] => ret None
         end)
        [LookupError]
        (fun _ => ret None).

    (** [for variation in name_variations: try: ... except: pass] *)
Fixpoint try_variations (name_variations : list string) : M Stdout (option string) :=
      match name_variations with
      | [] => ret None
      | variation :: rest =>
          found ← try_get by_common_name variation;
          match found with
          | Some code => ret (Some code)
          | None => try_variations rest
          end
      end.

Definition get_country_code (country_name : string) : M Stdout (option string) :=
      if negb (Py.truthy country_name) then ret None
      else
        (* Check special cases first *)
        match SPECIAL_CASES !! country_name with
        | Some code => ret (Some code)
        | None =>
            (* Try exact match by name *)
            found ← try_get by_name country_name;
            match found with
            | Some code => ret (Some code)
            | None =>
                (* Try fuzzy search (case-insensitive) *)
                found ← try_search_fuzzy country_name;
                match found with
                | Some code => ret (Some code)
                | None =>
                    (* Try common name variations *)
                    found ← try_variations [ Py.upper country_name;
                                             Py.lower country_name;
                                             Py.title country_name ];
                    match found with
                    | Some code => ret (Some code)
                    | None =>
                        print (CouldNotMapCountry country_name);;
                        ret None
                    end
                end
            end
        end.

    (** The value [get] returns is not looked at: the call either raises or
        the function returns [True]. *)
Definition validate_country_code (code : string) : M Stdout bool :=
      if negb (Py.truthy code) || negb (String.length code =? 2)%nat then ret false
      else if bool_decide (code ∈ SPECIAL_CASES_values) then ret true
      else
        try_except
          (call (countries_get db by_alpha_2 (Py.upper code));;
           ret true)
          [KeyError; AttributeError]
          (fun _ => ret false).

End WithDatabase.

End CountryCodeResolver.


(* ===================================================================== *)
(** * The XML libraries                                                   *)
(* ===================================================================== *)

(** [generate_xml] builds a tree with [xml.etree.ElementTree];
    [_write_pretty_xml] turns it into text with [ET.tostring], parses the
    text with [minidom.parseString] and writes what [toprettyxml] makes of
    the parsed document.  This module models those library calls on the
    fragment of XML the program writes: elements without attributes, text,
    comments and the XML declaration. *)

Module Xml.

Definition LF : ascii := ascii_of_nat 10.
Definition CR : ascii := ascii_of_nat 13.
Definition newl : string := String LF EmptyString.
Definition tab : string := String (ascii_of_nat 9) EmptyString.
Definition quote_char : ascii := ascii_of_nat 34.
Definition quote : string := String quote_char EmptyString.

(** ** xml.etree.ElementTree *)

(** An [Element] has a tag, a text (or [None]) and subelements; a comment
    has a text.  No element of the program has attributes or a tail. *)
Inductive Element : Type :=
| Elem (tag : string) (text : option string) (children : list Element)
| Comment (text : string).

(** [_escape_cdata] *)
Definition escape_cdata (text : string) : string :=
  Py.replace (Py.replace (Py.replace text "&" "&amp;") "<" "&lt;") ">" "&gt;".

Definition concat_strings (l : list string) : string :=
  fold_right String.append EmptyString l.

(** [_serialize_xml], with [short_empty_elements=True] *)
Fixpoint serialize_xml (elem : Element) : string :=
  match elem with
  | Comment text => "<!--" +:+ text +:+ "-->"
  | Elem tag text children =>
      "<" +:+ tag +:+
      (if Py.truthy_opt text || negb (Nat.eqb (length children) 0)
       then
         ">" +:+
         (if Py.truthy_opt text then escape_cdata (default EmptyString text)
          else EmptyString) +:+
         concat_strings (map serialize_xml children) +:+
         "</" +:+ tag +:+ ">"
       else " />")
  end.

(** [ET.tostring(root, encoding='utf-8')]: no XML declaration is written for
    this encoding. *)
Definition tostring (root : Element) : string := serialize_xml root.

(** ** xml.dom.minidom *)

Inductive Node : Type :=
| Element_node (tagName : string) (childNodes : list Node)
| Text_node (data : string)
| Comment_node (data : string).

(** *** The parser *)

Inductive token : Type :=
| TDecl (data : string)       (* <?...?> *)
| TComment (data : string)    (* <!--...--> *)
| TOpen (name : string)       (* <name> *)
| TClose (name : string)      (* </name> *)
| TEmpty (name : string)      (* <name/> *)
| TText (data : string).      (* character data, references resolved *)

(** The characters XML 1.0 allows in a document. *)
Definition is_xml_char (c : ascii) : bool :=
  (32 <=? Py.code c)%nat || (Py.code c =? 9)%nat || (Py.code c =? 10)%nat
  || (Py.code c =? 13)%nat.

Definition is_name_start (c : ascii) : bool :=
  Py.is_cased c || (Py.code c =? 95)%nat (* _ *) || (Py.code c =? 58)%nat (* : *).

Definition is_name_char (c : ascii) : bool :=
  is_name_start c || Py.is_digit c || (Py.code c =? 45)%nat (* - *)
  || (Py.code c =? 46)%nat (* . *).

(** White space in markup and between the nodes of a document. *)
Definition is_xml_space (c : ascii) : bool :=
  (Py.code c =? 32)%nat || (Py.code c =? 9)%nat || (Py.code c =? 10)%nat
  || (Py.code c =? 13)%nat.

(** Line ends are normalised before anything else: CR LF and a lone CR
    become LF. *)
Fixpoint normalize_newlines (s : string) : string :=
  match s with
  | EmptyString => EmptyString
  | String c s' =>
      if Ascii.eqb c CR then
        String LF
          match s' with
          | EmptyString => EmptyString
          | String c2 s2 =>
              if Ascii.eqb c2 LF then normalize_newlines s2
              else normalize_newlines s'
          end
      else String c (normalize_newlines s')
  end.

(** The predefined entities. *)
Definition entity (name : string) : option ascii :=
  if String.eqb name "amp" then Some "&"%char
  else if String.eqb name "lt" then Some "<"%char
  else if String.eqb name "gt" then Some ">"%char
  else if String.eqb name "quot" then Some quote_char
  else if String.eqb name "apos" then Some "'"%char
  else None.

(** Where the scanner is. *)
Inductive mode : Type :=
| Content (text : string)                  (* in character data *)
| Reference (text : string) (name : string)   (* after & *)
| Markup                                   (* after < *)
| OpenName (name : string)                 (* in <name *)
| OpenSpace (name : string)                (* after <name and white space *)
| OpenSlash (name : string)                (* after <name/ *)
| CloseName (name : string)                (* in </name *)
| CloseSpace (name : string)               (* after </name and white space *)
| Bang                                     (* after <! *)
| BangDash                                 (* after <!- *)
| InComment (data : string)                (* in <!--data *)
| CommentDash (data : string)              (* after <!--data- *)
| CommentDashDash (data : string)          (* after <!--data-- *)
| InPI (data : string)                     (* in <?data *)
| PIQuestion (data : string).              (* after <?data? *)

Definition snoc (s : string) (c : ascii) : string := s +:+ String c EmptyString.

(** The text read so far becomes a token when markup begins. *)
Definition flush (text : string) : list token :=
  match text with
  | EmptyString => []
  | String _ _ => [TText text]
  end.

(** One character.  [None] is a syntax error. *)
Definition step (st : mode * list token) (c : ascii) : option (mode * list token) :=
  let '(m, toks) := st in
  if negb (is_xml_char c) then None else
  match m with
  | Content text =>
      if Ascii.eqb c "<" then Some (Markup, toks ++ flush text)
      else if Ascii.eqb c "&" then Some (Reference text EmptyString, toks)
      else Some (Content (snoc text c), toks)
  | Reference text name =>
      if Ascii.eqb c ";" then
        match entity name with
        | Some x => Some (Content (snoc text x), toks)
        | None => None
        end
      else if is_name_char c then Some (Reference text (snoc name c), toks)
      else None
  | Markup =>
      if Ascii.eqb c "/" then Some (CloseName EmptyString, toks)
      else if Ascii.eqb c "!" then Some (Bang, toks)
      else if Ascii.eqb c "?" then Some (InPI EmptyString, toks)
      else if is_name_start c then Some (OpenName (String c EmptyString), toks)
      else None
  | OpenName name =>
      if Ascii.eqb c ">" then Some (Content EmptyString, toks ++ [TOpen name])
      else if Ascii.eqb c "/" then Some (OpenSlash name, toks)
      else if is_xml_space c then Some (OpenSpace name, toks)
      else if is_name_char c then Some (OpenName (snoc name c), toks)
      else None
  | OpenSpace name =>
      if Ascii.eqb c ">" then Some (Content EmptyString, toks ++ [TOpen name])
      else if Ascii.eqb c "/" then Some (OpenSlash name, toks)
      else if is_xml_space c then Some (OpenSpace name, toks)
      else None
  | OpenSlash name =>
      if Ascii.eqb c ">" then Some (Content EmptyString, toks ++ [TEmpty name])
      else None
  | CloseName name =>
      match name with
      | EmptyString =>
          if is_name_start c then Some (CloseName (String c EmptyString), toks) else None
      | String _ _ =>
          if Ascii.eqb c ">" then Some (Content EmptyString, toks ++ [TClose name])
          else if is_xml_space c then Some (CloseSpace name, toks)
          else if is_name_char c then Some (CloseName (snoc name c), toks)
          else None
      end
  | CloseSpace name =>
      if Ascii.eqb c ">" then Some (Content EmptyString, toks ++ [TClose name])
      else if is_xml_space c then Some (CloseSpace name, toks)
      else None
  | Bang => if Ascii.eqb c "-" then Some (BangDash, toks) else None
  | BangDash => if Ascii.eqb c "-" then Some (InComment EmptyString, toks) else None
  | InComment data =>
      if Ascii.eqb c "-" then Some (CommentDash data, toks)
      else Some (InComment (snoc data c), toks)
  | CommentDash data =>
      if Ascii.eqb c "-" then Some (CommentDashDash data, toks)
      else Some (InComment (snoc (snoc data "-") c), toks)
  | CommentDashDash data =>
      if Ascii.eqb c ">" then Some (Content EmptyString, toks ++ [TComment data])
      else None
  | InPI data =>
      if Ascii.eqb c "?" then Some (PIQuestion data, toks)
      else Some (InPI (snoc data c), toks)
  | PIQuestion data =>
      if Ascii.eqb c ">" then Some (Content EmptyString, toks ++ [TDecl data])
      else if Ascii.eqb c "?" then Some (PIQuestion (snoc data "?"), toks)
      else Some (InPI (snoc (snoc data "?") c), toks)
  end.

Fixpoint scan (st : mode * list token) (s : string) : option (mode * list token) :=
  match s with
  | EmptyString => Some st
  | String c s' =>
      match step st c with
      | Some st' => scan st' s'
      | None => None
      end
  end.

(** The tokens of a document: the input must end in character data. *)
Definition tokenize (s : string) : option (list token) :=
  match scan (Content EmptyString, []) (normalize_newlines s) with
  | Some (Content text, toks) => Some (toks ++ flush text)
  | _ => None
  end.

(** The open elements, innermost first, each with the children it has so
    far. *)
Definition frames : Type := list (string * list Node).

Definition is_element (n : Node) : bool :=
  match n with Element_node _ _ => true | _ => false end.

(** Append a node to the innermost open element, or to the document. *)
Definition add_node (n : Node) (stack : frames) (top : list Node) : frames * list Node :=
  match stack with
  | [] => ([], top ++ [n])
  | (tag, kids) :: stack' => ((tag, kids ++ [n]) :: stack', top)
  end.

(** One token.  [top] holds the children of the document: comments and
    one element.  [None] is a syntax error. *)
Definition feed (st : frames * list Node) (tok : token) : option (frames * list Node) :=
  let '(stack, top) := st in
  match tok with
  | TDecl _ =>
      (* the XML declaration, at the very start only *)
      match stack, top with
      | [], [] => Some (stack, top)
      | _, _ => None
      end
  | TComment data => Some (add_node (Comment_node data) stack top)
  | TText data =>
      match stack with
      | [] => if Py.all_chars is_xml_space data then Some (stack, top) else None
      | _ :: _ => Some (add_node (Text_node data) stack top)
      end
  | TOpen name =>
      match stack with
      | [] => if existsb is_element top then None else Some ([(name, [])], top)
      | _ :: _ => Some ((name, []) :: stack, top)
      end
  | TEmpty name =>
      match stack with
      | [] => if existsb is_element top then None
              else Some ([], top ++ [Element_node name []])
      | _ :: _ => Some (add_node (Element_node name []) stack top)
      end
  | TClose name =>
      match stack with
      | [] => None
      | (tag, kids) :: stack' =>
          if String.eqb tag name
          then Some (add_node (Element_node tag kids) stack' top)
          else None
      end
  end.

Fixpoint feed_all (st : frames * list Node) (toks : list token)
  : option (frames * list Node) :=
  match toks with
  | [] => Some st
  | tok :: toks' =>
      match feed st tok with
      | Some st' => feed_all st' toks'
      | None => None
      end
  end.

(** Build the document from its tokens: at the end every element is closed
    and the document has its element. *)
Definition build (toks : list token) : option (list Node) :=
  match feed_all ([], []) toks with
  | Some ([], top) => if existsb is_element top then Some top else None
  | _ => None
  end.

(** [minidom.parseString]: the children of the document, or
    [ExpatError]. *)
Definition parseString (s : string) : result (list Node) :=
  match tokenize s with
  | Some toks =>
      match build toks with
      | Some doc => Ok doc
      | None => Raise ExpatError
      end
  | None => Raise ExpatError
  end.

(** *** The pretty printer *)

(** [_write_data]: the escapes of [minidom]. *)
Definition write_data (data : string) : string :=
  Py.replace (Py.replace (Py.replace (Py.replace data "&" "&amp;") "<" "&lt;")
                         quote "&quot;") ">" "&gt;".

(** [Node.writexml(writer, indent, addindent, newl)] for the three kinds of
    node. *)
Fixpoint writexml (indent addindent newl : string) (n : Node) : string :=
  match n with
  | Text_node data => write_data (indent +:+ data +:+ newl)
  | Comment_node data => indent +:+ "<!--" +:+ data +:+ "-->" +:+ newl
  | Element_node tagName childNodes =>
      indent +:+ "<" +:+ tagName +:+
      match childNodes with
      | [] => "/>" +:+ newl
      | [Text_node data] =>
          ">" +:+ write_data data +:+ "</" +:+ tagName +:+ ">" +:+ newl
      | _ =>
          ">" +:+ newl +:+
          concat_strings (map (writexml (indent +:+ addindent) addindent newl) childNodes)
          +:+ indent +:+ "</" +:+ tagName +:+ ">" +:+ newl
      end
  end.

(** [Comment.writexml] refuses a comment that holds two dashes in a row. *)
Fixpoint comments_writable (n : Node) : bool :=
  match n with
  | Text_node _ => true
  | Comment_node data => negb (Py.contains "--" data)
  | Element_node _ childNodes => forallb comments_writable childNodes
  end.

(** [doc.toprettyxml(indent="\t", encoding='utf-8')] *)
Definition toprettyxml (doc : list Node) : result string :=
  if forallb comments_writable doc then
    Ok ("<?xml version=" +:+ quote +:+ "1.0" +:+ quote +:+ " encoding=" +:+ quote
        +:+ "utf-8" +:+ quote +:+ "?>" +:+ newl +:+
        concat_strings (map (writexml EmptyString tab newl) doc))
  else Raise ValueError.

(** *** Reading a document back *)




End Xml.
(* ===================================================================== *)
(** * What the program reads from outside                                 *)
(* ===================================================================== *)

(** The sections of the GOV.UK page, one per [_parse_...] method. *)
Inductive section : Type :=
| Germany | UK | Europe | World | Ships | NavalParties | Operations
| Exercises | IsolatedDetachments.

(** What a parser finds for its section: no heading (neither by [id] nor by
    the text fallback), a heading that no table follows, or the rows that
    [_parse_table_rows] extracts from the table (header row skipped, rows
    without cells dropped, every cell stripped). *)
Inductive SectionView : Type :=
| HeadingNotFound
| TableNotFound
| TableRows (rows : list (list string)).

(** The parsed page, [soup]. *)
Definition Soup : Type := section -> SectionView.

(** The spreadsheet as [pandas] hands it over: the column names and, per
    row, [str(row[col])] for the columns. *)
Record DataFrame : Type := {
  columns : list string;
  iterrows : list (gmap string string)
}.

(** The outcomes of the calls that leave the program. *)
Record Environment : Type := {
  (** [requests.get(GOV_UK_BFPO_URL)], [raise_for_status()] and the
      [BeautifulSoup] constructor *)
  fetch_gov_uk : result Soup;
  (** [requests.get(FCDO_ODS_URL)], [raise_for_status()] and the write to a
      temporary file, whose name is returned *)
  fetch_fcdo_ods : result string;
  (** [os.path.exists] *)
  path_exists : string -> bool;
  (** [pd.read_excel(ods_file, engine='odf')] *)
  read_excel : string -> result DataFrame;
  (** [datetime.now()]: year, month, day *)
  today : nat * nat * nat
}.

(* ===================================================================== *)
(** * class BFPOScraperSimple: collecting the records                     *)
(* ===================================================================== *)

(** An address is a Python dictionary from field names to strings. *)
Abbreviation Address := (gmap string string).

(** The list [self.addresses], the standard output, and the file the run
    writes (absent until [_write_pretty_xml] has written it).  The other
    attributes of [self] are set once: [fcdo_ods_file] is an argument of
    [run]. *)
Record Scraper : Type := {
  addresses : list Address;
  stdout : Stdout;
  output_document : option string
}.

Definition set_addresses (f : list Address -> list Address) (self : Scraper) : Scraper :=
  {| addresses := f (addresses self);
     stdout := stdout self;
     output_document := output_document self |}.

Definition set_stdout (out : Stdout) (self : Scraper) : Scraper :=
  {| addresses := addresses self;
     stdout := out;
     output_document := output_document self |}.

Definition set_output_document (doc : string) (self : Scraper) : Scraper :=
  {| addresses := addresses self;
     stdout := stdout self;
     output_document := Some doc |}.

(** [__init__] *)
Definition init : Scraper :=
  {| addresses := [];
     stdout := [];
     output_document := None |}.

(** A method that only prints. *)
Definition printing {A} (m : M Stdout A) : M Scraper A := zoom stdout set_stdout m.

Module BFPOScraperSimple.

Section WithDatabase.

Variable db : Pycountry.

(** The dictionary with [address[key] = value] added when the optional
    argument is truthy ([if value: address[key] = value]). *)
Definition set_if_truthy (key : string) (value : option string) (address : Address)
  : Address :=
  match value with
  | Some v => if Py.truthy v then <[key := v]> address else address
  | None => address
  end.

(** The value [_add_address] stores under ['BfpoNum']. *)
Definition prefixed (bfpo_num : string) : string :=
  if negb (Py.startswith (Py.upper bfpo_num) "BFPO")
  then "BFPO " +:+ bfpo_num
  else bfpo_num.

Definition _add_address (bfpo_num location : string) (postcode country : option string)
           (bfpo_type : string) (box_num : option string) : M Scraper unit :=
  (* Ensure BfpoNum is prefixed with "BFPO " *)
  let bfpo_num := prefixed bfpo_num in
  let address : Address :=
    <["Type" := bfpo_type]> (<["Loc" := location]> (<["BfpoNum" := bfpo_num]> ∅)) in
  let address := set_if_truthy "BoxNum" box_num address in
  let address := set_if_truthy "PstCd" postcode address in
  address ←
    match country with
    | Some c =>
        if Py.truthy c then
          let address := <["Ctry" := c]> address in
          country_code ← printing (CountryCodeResolver.get_country_code db c);
          ret (set_if_truthy "CtryCd" country_code address)
        else ret address
    | None => ret address
    end;
  modify (set_addresses (fun l => l ++ [address])).

(** The common frame of the section parsers: find the heading, else warn
    and return; find the table, else return; then loop over the rows. *)
Definition for_rows_of (soup : Soup) (sec : section) (title : string)
           (body : list string -> M Scraper unit) : M Scraper unit :=
  match soup sec with
  | HeadingNotFound => printing (print (CouldNotFindSection title))
  | TableNotFound => ret tt
  | TableRows rows => for_each rows body
  end.

Definition _parse_germany_locations (soup : Soup) : M Scraper unit :=
  for_rows_of soup Germany "Germany BFPO locations" (fun row =>
    match row with
    | row0 :: row1 :: row2 :: _ =>                       (* len(row) >= 3 *)
        _add_address row1 row0 (Some row2) (Some "Germany") "static" None
    | _ => ret tt
    end).

Definition _parse_uk_locations (soup : Soup) : M Scraper unit :=
  for_rows_of soup UK "UK BFPO locations" (fun row =>
    match row with
    | row0 :: row1 :: row2 :: _ =>
        _add_address row1 row0 (Some row2) (Some "United Kingdom") "static" None
    | _ => ret tt
    end).

Definition _parse_europe_locations (soup : Soup) : M Scraper unit :=
  for_rows_of soup Europe "Europe BFPO locations" (fun row =>
    match row with
    | row0 :: row1 :: row2 :: row3 :: _ =>               (* len(row) >= 4 *)
        _add_address row1 row0 (Some row2) (Some row3) "static" None
    | _ => ret tt
    end).

Definition _parse_world_locations (soup : Soup) : M Scraper unit :=
  for_rows_of soup World "World BFPO locations" (fun row =>
    match row with
    | row0 :: row1 :: row2 :: row3 :: _ =>
        _add_address row1 row0 (Some row2) (Some row3) "static" None
    | _ => ret tt
    end).

Definition _parse_ships (soup : Soup) : M Scraper unit :=
  for_rows_of soup Ships "HM Ships" (fun row =>
    match row with
    | row0 :: row1 :: row2 :: _ =>
        _add_address row1 row0 (Some row2) None "ship" None
    | _ => ret tt
    end).

(** The [if]/[elif] chain of [_parse_naval_parties]. *)
Definition naval_party_country (location : string) : option string :=
  if Py.contains "Diego Garcia" location then Some "British Indian Ocean Territory"
  else if Py.contains "Ottawa" location then Some "Canada"
  else if Py.contains "Singapore" location then Some "Singapore"
  else if Py.contains "Den Helder" location then Some "Netherlands"
  else if Py.contains "Falklands" location then Some "Falklands"
  else None.

Definition _parse_naval_parties (soup : Soup) : M Scraper unit :=
  for_rows_of soup NavalParties "Naval parties" (fun row =>
    match row with
    | row0 :: row1 :: row2 :: _ =>
        let location := row0 in
        let country := naval_party_country location in
        _add_address row1 location (Some row2) country "navalparty" None
    | _ => ret tt
    end).

Definition _parse_operations (soup : Soup) : M Scraper unit :=
  for_rows_of soup Operations "Operations" (fun row =>
    match row with
    | row0 :: row1 :: row2 :: _ =>
        _add_address row1 row0 (Some row2) None "operation" None
    | _ => ret tt
    end).

Definition _parse_exercises (soup : Soup) : M Scraper unit :=
  for_rows_of soup Exercises "Exercises" (fun row =>
    match row with
    | row0 :: row1 :: row2 :: _ =>
        _add_address row1 row0 (Some row2) None "exercise" None
    | _ => ret tt
    end).

Definition ISOLATED_DETACHMENT_POSTCODE : string := "BF1 0AX".

Definition _parse_isolated_detachments (soup : Soup) : M Scraper unit :=
  for_rows_of soup IsolatedDetachments "Isolated detachments" (fun row =>
    match row with
    | row0 :: row1 :: _ =>                               (* len(row) >= 2 *)
        let location := row0 in
        let box_num := row1 in
        (* All isolated detachments are under BFPO 105 in Germany *)
        _add_address "105" location (Some ISOLATED_DETACHMENT_POSTCODE)
                     (Some "Germany") "detachment" (Some box_num)
    | _ => ret tt
    end).

(** [scrape_gov_uk_bfpo]: any exception is reported and raised again. *)
Definition scrape_gov_uk_bfpo (fetch : result Soup) : M Scraper unit :=
  try_except
    (soup ← call fetch;
     _parse_germany_locations soup;;
     _parse_uk_locations soup;;
     _parse_europe_locations soup;;
     _parse_world_locations soup;;
     _parse_ships soup;;
     _parse_naval_parties soup;;
     _parse_operations soup;;
     _parse_exercises soup;;
     _parse_isolated_detachments soup)
    [Exception]
    (fun e => printing (print (ErrorScrapingGovUk e));; raise e).


(** The dictionary literal of [_infer_country_from_location], in its
    order. *)
Definition country_patterns : list (string * string) :=
  [ (* Europe *)
    ("ankara", "Turkey");
    ("paris", "France");
    ("berlin", "Germany");
    ("madrid", "Spain");
    ("rome", "Italy");
    ("athens", "Greece");
    ("vienna", "Austria");
    ("brussels", "Belgium");
    ("amsterdam", "Netherlands");
    ("dublin", "Ireland");
    ("lisbon", "Portugal");
    ("copenhagen", "Denmark");
    ("stockholm", "Sweden");
    ("oslo", "Norway");
    ("helsinki", "Finland");
    ("warsaw", "Poland");
    ("prague", "Czech Republic");
    ("budapest", "Hungary");
    ("bucharest", "Romania");
    ("sofia", "Bulgaria");
    ("moscow", "Russia");
    (* Americas *)
    ("ottawa", "Canada");
    ("washington", "USA");
    ("new york", "USA");
    ("los angeles", "USA");
    ("san francisco", "USA");
    ("chicago", "USA");
    ("boston", "USA");
    ("atlanta", "USA");
    ("mexico city", "Mexico");
    ("brasilia", "Brazil");
    ("buenos aires", "Argentina");
    ("santiago", "Chile");
    ("lima", "Peru");
    ("bogota", "Colombia");
    (* Asia *)
    ("tokyo", "Japan");
    ("beijing", "China");
    ("shanghai", "China");
    ("seoul", "South Korea");
    ("delhi", "India");
    ("mumbai", "India");
    ("bangkok", "Thailand");
    ("singapore", "Singapore");
    ("jakarta", "Indonesia");
    ("manila", "Philippines");
    ("kuala lumpur", "Malaysia");
    ("hanoi", "Vietnam");
    ("islamabad", "Pakistan");
    ("kabul", "Afghanistan");
    ("tehran", "Iran");
    ("riyadh", "Saudi Arabia");
    ("dubai", "United Arab Emirates");
    ("abu dhabi", "United Arab Emirates");
    (* Oceania *)
    ("canberra", "Australia");
    ("sydney", "Australia");
    ("melbourne", "Australia");
    ("wellington", "New Zealand");
    ("auckland", "New Zealand");
    (* Africa *)
    ("cairo", "Egypt");
    ("nairobi", "Kenya");
    ("johannesburg", "South Africa");
    ("pretoria", "South Africa");
    ("lagos", "Nigeria");
    ("abuja", "Nigeria");
    ("addis ababa", "Ethiopia");
    ("accra", "Ghana");
    ("dar es salaam", "Tanzania");
    ("kampala", "Uganda") ].

(** [for pattern, country in country_patterns.items(): if pattern in
    location_lower: return country], else [None]. *)
Definition _infer_country_from_location (location : string) : option string :=
  let location_lower := Py.lower location in
  match List.find (fun entry => Py.contains (fst entry) location_lower) country_patterns with
  | Some entry => Some (snd entry)
  | None => None
  end.

(** [download_fcdo_ods]: the name of the temporary file, or [None] after a
    reported failure. *)
Definition download_fcdo_ods (fetch : result string) : M Scraper (option string) :=
  try_except
    (path ← call fetch;
     ret (Some path))
    [Exception]
    (fun e => printing (print (ErrorDownloadingFcdoOds e));; ret None).

Definition has_group (cols : list string) (group : string * string * string) : bool :=
  let '(loc_col, bfpo_col, post_col) := group in
  bool_decide (loc_col ∈ cols) && bool_decide (bfpo_col ∈ cols)
  && bool_decide (post_col ∈ cols).

(** The group of columns numbered [i]. *)
Definition numbered_group (i : nat) : string * string * string :=
  ("Location." +:+ Py.str_of_nat i,
   "BFPO No." +:+ Py.str_of_nat i,
   "Postcode." +:+ Py.str_of_nat i).

(** The [while True] loop over the numbered groups, from [i] on; [None]
    when [fuel] iterations did not reach the [break]. *)
Fixpoint numbered_groups (fuel : nat) (cols : list string) (i : nat)
  : option (list (string * string * string)) :=
  match fuel with
  | O => None
  | S fuel' =>
      if has_group cols (numbered_group i)
      then option_map (cons (numbered_group i)) (numbered_groups fuel' cols (S i))
      else Some []
  end.

(** [column_groups]: the unnumbered group first, then the numbered ones.
    The loop breaks within [length cols + 1] iterations, as proved with the
    facts on the spreadsheet below. *)
Definition column_groups (cols : list string) : list (string * string * string) :=
  (if has_group cols ("Location", "BFPO No", "Postcode")
   then [("Location", "BFPO No", "Postcode")] else [])
  ++ default [] (numbered_groups (S (length cols)) cols 1).

(** [row[col]] *)
Definition getitem (row : gmap string string) (col : string) : result string :=
  match row !! col with
  | Some v => Ok v
  | None => Raise KeyError
  end.

(** The body of the inner loop of [parse_fcdo_ods], with its [try]. *)
Definition parse_fcdo_cells (row : gmap string string) (group : string * string * string)
  : M Scraper unit :=
  let '(loc_col, bfpo_col, post_col) := group in
  try_except
    (location ← call (getitem row loc_col);
     let location := Py.strip location in
     bfpo_num ← call (getitem row bfpo_col);
     let bfpo_num := Py.strip bfpo_num in
     postcode ← call (getitem row post_col);
     let postcode := Py.strip postcode in
     (* Skip if any field is NaN or empty *)
     if String.eqb location "nan" || String.eqb location ""
        || String.eqb bfpo_num "nan" || String.eqb bfpo_num ""
     then ret tt
     else
       (* Clean up postcode *)
       let postcode :=
         if String.eqb postcode "nan" || String.eqb postcode ""
         then None else Some postcode in
       (* Try to infer country from location name *)
       let country := _infer_country_from_location location in
       _add_address bfpo_num location postcode country "fcdo" None)
    [Exception]
    (fun _ => ret tt).

Definition parse_fcdo_ods (read_excel : string -> result DataFrame) (ods_file : string)
  : M Scraper unit :=
  try_except
    (df ← call (read_excel ods_file);
     let groups := column_groups (columns df) in
     for_each (iterrows df) (fun row =>
       for_each groups (fun group => parse_fcdo_cells row group)))
    [Exception]
    (fun e => printing (print (ErrorParsingFcdoOds e))).

(** The part of [run] that collects the records: everything before the call
    of [generate_xml]. *)
Definition collect (env : Environment) (fcdo_ods_file : option string)
  : M Scraper unit :=
  (* Scrape GOV.UK *)
  scrape_gov_uk_bfpo (fetch_gov_uk env);;
  (* Handle FCDO ODS file *)
  ods_file ←
    (if Py.truthy_opt fcdo_ods_file
     then ret fcdo_ods_file                   (* Use pre-downloaded file *)
     else download_fcdo_ods (fetch_fcdo_ods env));   (* Try to download *)
  (* Parse FCDO data if we have a file *)
  match ods_file with
  | Some path =>
      if Py.truthy path then
        if path_exists env path
        then parse_fcdo_ods (read_excel env) path
        else printing (print (FcdoOdsFileNotFound path))
      else printing (print SkippingFcdoData)
  | None => printing (print SkippingFcdoData)
  end.

(* --------------------------------------------------------------------- *)
(** ** [generate_xml]                                                     *)
(* --------------------------------------------------------------------- *)

(** [get_sort_key]: the integer after the prefix, or 999. *)
Definition sort_key_of (bfpo_num : string) : Z :=
  let bfpo_num := Py.strip (Py.replace bfpo_num "BFPO " "") in
  if Py.isdigit bfpo_num then Py.int bfpo_num else 999%Z.

Definition get_sort_key (addr : Address) : result Z :=
  match getitem addr "BfpoNum" with
  | Ok bfpo_num => Ok (sort_key_of bfpo_num)
  | Raise e => Raise e
  end.

(** [list.sort(key=...)] is a stable sort on the keys, computed once per
    element.  A stable sort is determined by its specification (a sorted
    permutation in which elements of equal key keep their order), so any
    stable algorithm models it; this one inserts from the right. *)
Fixpoint insert_keyed {A} (x : Z * A) (l : list (Z * A)) : list (Z * A) :=
  match l with
  | [] => [x]
  | y :: l' =>
      if (fst x <=? fst y)%Z then x :: y :: l'
      else y :: insert_keyed x l'
  end.

Fixpoint sort_keyed {A} (l : list (Z * A)) : list (Z * A) :=
  match l with
  | [] => []
  | x :: l' => insert_keyed x (sort_keyed l')
  end.

(** The keys of all elements, or the first exception. *)
Fixpoint keyed {A} (key : A -> result Z) (l : list A) : result (list (Z * A)) :=
  match l with
  | [] => Ok []
  | x :: l' =>
      match key x with
      | Ok k =>
          match keyed key l' with
          | Ok kl => Ok ((k, x) :: kl)
          | Raise e => Raise e
          end
      | Raise e => Raise e
      end
  end.

(** [l.sort(key=key)] *)
Definition sort_by {A} (key : A -> result Z) (l : list A) : result (list A) :=
  match keyed key l with
  | Ok kl => Ok (map snd (sort_keyed kl))
  | Raise e => Raise e
  end.

Fixpoint zeros (k : nat) : string :=
  match k with
  | O => EmptyString
  | S k' => String "0" (zeros k')
  end.

(** Zero-padded decimal, as [%m] and [%d] (width 2) and [%Y] (width 4)
    print. *)
Definition zero_padded (width n : nat) : string :=
  let digits := Py.str_of_nat n in
  zeros (width - String.length digits) +:+ digits.

(** [datetime.now().strftime("%Y-%m-%d")] *)
Definition strftime_Ymd (today : nat * nat * nat) : string :=
  let '(year, month, day) := today in
  zero_padded 4 year +:+ "-" +:+ zero_padded 2 month +:+ "-" +:+ zero_padded 2 day.

(** The text of the comment at the head of the document. *)
Definition header_comment (today : nat * nat * nat) : string :=
  Xml.newl +:+ "BFPO Address Configuration" +:+ Xml.newl
  +:+ "Generated from GOV.UK BFPO locations" +:+ Xml.newl
  +:+ "Last Updated: " +:+ strftime_Ymd today +:+ Xml.newl
  +:+ "Created By: Affinis Ltd (Dominic Digby)" +:+ Xml.newl
  +:+ "Schema: bfpo_config.xsd" +:+ Xml.newl
  +:+ "Country Codes: ISO 3166-1 alpha-2 (via pycountry)" +:+ Xml.newl.

(** [ET.SubElement(parent, tag).text = text] *)
Definition text_element (tag text : string) : Xml.Element :=
  Xml.Elem tag (Some text) [].

(** [if key in addr: ET.SubElement(addr_elem, key).text = addr[key]] *)
Definition optional_element (addr : Address) (key : string) : list Xml.Element :=
  match addr !! key with
  | Some v => [text_element key v]
  | None => []
  end.

(** The [BFFO_Address] element of one address; the required fields are read
    with [addr[...]], which raises [KeyError] when the key is missing. *)
Definition address_element (addr : Address) : result Xml.Element :=
  match getitem addr "BfpoNum", getitem addr "Loc", getitem addr "Type" with
  | Ok bfpo_num, Ok loc, Ok type =>
      Ok (Xml.Elem "BFFO_Address" None
            ([text_element "BfpoNum" bfpo_num]          (* Required fields *)
             ++ optional_element addr "BoxNum"          (* Optional BoxNum *)
             ++ [text_element "Loc" loc]
             ++ optional_element addr "PstCd"           (* Optional fields *)
             ++ optional_element addr "Ctry"
             ++ (match addr !! "CtryCd" with
                 | Some v => if Py.truthy v then [text_element "CtryCd" v] else []
                 | None => []
                 end)
             ++ [text_element "Type" type]))            (* Type (required) *)
  | Raise e, _, _ => Raise e
  | _, Raise e, _ => Raise e
  | _, _, Raise e => Raise e
  end.

Fixpoint address_elements (l : list Address) : result (list Xml.Element) :=
  match l with
  | [] => Ok []
  | addr :: l' =>
      match address_element addr with
      | Ok e =>
          match address_elements l' with
          | Ok es => Ok (e :: es)
          | Raise x => Raise x
          end
      | Raise x => Raise x
      end
  end.

(** [_write_pretty_xml]: serialise, parse again, pretty-print, write. *)
Definition _write_pretty_xml (root : Xml.Element) : M Scraper unit :=
  let rough_string := Xml.tostring root in
  reparsed ← call (Xml.parseString rough_string);
  pretty_xml ← call (Xml.toprettyxml reparsed);
  modify (set_output_document pretty_xml).

Definition generate_xml (today : nat * nat * nat) : M Scraper unit :=
  self ← get_state;
  (* Sort addresses by BFPO number (extract numeric part) *)
  sorted ← call (sort_by get_sort_key (addresses self));
  modify (set_addresses (fun _ => sorted));;
  (* Add BFPO addresses *)
  elems ← call (address_elements sorted);
  let root := Xml.Elem "Config" None (Xml.Comment (header_comment today) :: elems) in
  (* Write with pretty formatting *)
  _write_pretty_xml root.

(** [_print_country_stats], which [generate_xml] calls when the document
    is written: the numbers and the names it prints.  The count of the
    unmapped countries and their names are printed only when there are more
    addresses with a country than with a code. *)
Definition has_key (key : string) (addr : Address) : bool :=
  match addr !! key with Some _ => true | None => false end.

Record CountryStats : Type := {
  total_with_country : nat;
  total_with_code : nat;
  unmapped : option nat;
  unmapped_countries : gset string
}.

Definition _print_country_stats (l : list Address) : CountryStats :=
  let total_with_country := length (List.filter (has_key "Ctry") l) in
  let total_with_code := length (List.filter (has_key "CtryCd") l) in
  if (total_with_code <? total_with_country)%nat then
    {| total_with_country := total_with_country;
       total_with_code := total_with_code;
       unmapped := Some (total_with_country - total_with_code);
       unmapped_countries :=
         list_to_set
           (flat_map (fun addr =>
                        if has_key "Ctry" addr && negb (has_key "CtryCd" addr)
                        then [default EmptyString (addr !! "Ctry")] else [])
                     l) |}
  else
    {| total_with_country := total_with_country;
       total_with_code := total_with_code;
       unmapped := None;
       unmapped_countries := ∅ |}.

(** [run] *)
Definition run (env : Environment) (fcdo_ods_file : option string) : M Scraper unit :=
  collect env fcdo_ods_file;;
  generate_xml (today env).

End WithDatabase.

End BFPOScraperSimple.

(* ===================================================================== *)
(** * A small catalogue and a small page, for concrete runs               *)
(* ===================================================================== *)

Module Sample.

(** Entries of the ISO 3166-1 catalogue: name, alpha-2 code, common name. *)
Definition catalogue : list (string * string * option string) :=
  [ ("Germany", "DE", None);
    ("Canada", "CA", None);
    ("Netherlands", "NL", None);
    ("Singapore", "SG", None);
    ("United Kingdom", "GB", None);
    ("France", "FR", None);
    ("Bolivia, Plurinational State of", "BO", Some "Bolivia") ].

Definition country_of (entry : string * string * option string) : Country :=
  {| name := fst (fst entry); alpha_2 := snd (fst entry) |}.

Definition matches (f : field) (value : string) (entry : string * string * option string)
  : bool :=
  match f with
  | by_name => String.eqb (fst (fst entry)) value
  | by_alpha_2 => String.eqb (snd (fst entry)) value
  | by_common_name =>
      match snd entry with
      | Some cn => String.eqb cn value
      | None => false
      end
  end.

(** A database in the manner of the current [pycountry]: [get] returns
    [None] for an unknown value, [search_fuzzy] looks for the query inside
    the names, whatever the case, and raises [LookupError] when nothing
    matches. *)
Definition db : Pycountry :=
  {| countries_get := fun f value =>
       Ok (option_map country_of (List.find (matches f value) catalogue));
     countries_search_fuzzy := fun query =>
       match List.filter (fun entry => Py.contains (Py.lower query)
                                         (Py.lower (fst (fst entry)))) catalogue with
       | [] => Raise LookupError
       | found => Ok (map country_of found)
       end |}.

(** A database in the manner of the older [pycountry]: [get] raises
    [KeyError] for an unknown value. *)
Definition db_raising : Pycountry :=
  {| countries_get := fun f value =>
       match List.find (matches f value) catalogue with
       | Some entry => Ok (Some (country_of entry))
       | None => Raise KeyError
       end;
     countries_search_fuzzy := countries_search_fuzzy db |}.

(** A page with two sections. *)
Definition soup : Soup := fun sec =>
  match sec with
  | NavalParties => TableRows [["Ottawa"; "005"; "K1N 1A1"]]
  | IsolatedDetachments => TableRows [["Ramstein"; "12"]; ["Geilenkirchen"; ""]]
  | Ships => TableNotFound
  | _ => HeadingNotFound
  end.

Definition env : Environment :=
  {| fetch_gov_uk := Ok soup;
     fetch_fcdo_ods := Raise RequestException;
     path_exists := fun _ => false;
     read_excel := fun _ => Raise Exception;
     today := (2026, 11, 4)%nat |}.

(** A spreadsheet with two column groups and two rows; an empty cell is
    read as [nan]. *)
Definition spreadsheet : DataFrame :=
  {| columns := ["Location"; "BFPO No"; "Postcode"; "Unnamed: 3";
                 "Location.1"; "BFPO No.1"; "Postcode.1"];
     iterrows :=
       [ list_to_map
           [("Location", "British Embassy Paris "); ("BFPO No", "5422");
            ("Postcode", "nan"); ("Unnamed: 3", "nan");
            ("Location.1", "Ottawa"); ("BFPO No.1", "5487");
            ("Postcode.1", "BF1 2AY")];
         list_to_map
           [("Location", "Kathmandu"); ("BFPO No", "nan");
            ("Postcode", "BF1 2AB"); ("Unnamed: 3", "nan");
            ("Location.1", "nan"); ("BFPO No.1", "nan");
            ("Postcode.1", "nan")] ] |}.

End Sample.

(* ===================================================================== *)
(** * The resolution order, as the specification words it                 *)
(* ===================================================================== *)

(** The specification describes [get_country_code] as four lookups tried in
    a fixed order, the first match winning, and a warning when none
    matches.  This module writes that description down; it is compared with
    the method further on. *)

Module ResolutionOrder.

Section WithDatabase.

Variable db : Pycountry.

(** 1. Exact lookup in the override table. *)
Definition override_lookup (country_name : string) : option string :=
  CountryCodeResolver.SPECIAL_CASES !! country_name.

(** A lookup in the catalogue matches when it yields a country. *)
Definition catalogue_lookup (f : field) (value : string) : option string :=
  match countries_get db f value with
  | Ok (Some c) => Some (alpha_2 c)
  | _ => None
  end.

(** 2. Exact match against the canonical name. *)
Definition exact_name_lookup (country_name : string) : option string :=
  catalogue_lookup by_name country_name.

(** 3. Fuzzy match, the top-ranked candidate. *)
Definition fuzzy_lookup (country_name : string) : option string :=
  match countries_search_fuzzy db country_name with
  | Ok (c :: _) => Some (alpha_2 c)
  | _ => None
  end.

(** The first of the lookups that matches. *)
Fixpoint first_match (lookups : list (string -> option string)) (country_name : string)
  : option string :=
  match lookups with
  | [] => None
  | lookup :: rest =>
      match lookup country_name with
      | Some code => Some code
      | None => first_match rest country_name
      end
  end.

(** 4. Upper, lower and title case against the common names. *)
Definition case_variant_lookup (country_name : string) : option string :=
  first_match
    [ fun n => catalogue_lookup by_common_name (Py.upper n);
      fun n => catalogue_lookup by_common_name (Py.lower n);
      fun n => catalogue_lookup by_common_name (Py.title n) ]
    country_name.

Definition resolution_order : list (string -> option string) :=
  [ override_lookup; exact_name_lookup; fuzzy_lookup; case_variant_lookup ].

(** The code, and what is printed: a warning when nothing matched. *)
Definition resolve (country_name : string) : option string * list message :=
  match first_match resolution_order country_name with
  | Some code => (Some code, [])
  | None => (None, [CouldNotMapCountry country_name])
  end.

End WithDatabase.

End ResolutionOrder.

(* ===================================================================== *)
(** * The record of one call of [_add_address]                            *)
(* ===================================================================== *)

(** The dictionary [_add_address] appends, given the answer of the
    resolver for the country. *)
Definition address_of (bfpo_num location : string) (postcode country : option string)
           (bfpo_type : string) (box_num country_code : option string) : Address :=
  let address : Address :=
    <["Type" := bfpo_type]>
      (<["Loc" := location]> (<["BfpoNum" := BFPOScraperSimple.prefixed bfpo_num]> ∅)) in
  let address := BFPOScraperSimple.set_if_truthy "BoxNum" box_num address in
  let address := BFPOScraperSimple.set_if_truthy "PstCd" postcode address in
  match country with
  | Some c =>
      if Py.truthy c
      then BFPOScraperSimple.set_if_truthy "CtryCd" country_code (<["Ctry" := c]> address)
      else address
  | None => address
  end.

(** The answer of the resolver in a call of [_add_address]: it is asked
    only for a country that is given and not empty. *)
Definition resolver_answer (db : Pycountry) (country : option string) (out : Stdout)
  : result (option string) * Stdout :=
  match country with
  | Some c =>
      if Py.truthy c then CountryCodeResolver.get_country_code db c out
      else (Ok None, out)
  | None => (Ok None, out)
  end.

(** An optional argument as the record keeps it: absent when it is [None]
    or empty. *)
Definition kept (value : option string) : option string :=
  if Py.truthy_opt value then value else None.

(** The records the parsing paths make: a detachment record, from a row of
    the isolated-detachments table, or a record of another type, made
    without a box number. *)
Inductive produced : Address -> Prop :=
| produced_detachment (location box_num : string) (country_code : option string) :
    produced (address_of "105" location
                         (Some BFPOScraperSimple.ISOLATED_DETACHMENT_POSTCODE)
                         (Some "Germany") "detachment" (Some box_num) country_code)
| produced_other (bfpo_num location : string) (postcode country : option string)
                 (bfpo_type : string) (country_code : option string) :
    bfpo_type ∈ ["static"; "ship"; "navalparty"; "operation"; "exercise"; "fcdo"] ->
    produced (address_of bfpo_num location postcode country bfpo_type None country_code).

(** A method keeps a property of the list of addresses. *)
Definition preserves {A} (Q : Address -> Prop) (m : M Scraper A) : Prop :=
  forall s, Forall Q (addresses s) -> Forall Q (addresses (snd (m s))).

(** The record of a row of the isolated-detachments table, with the code
    the resolver gives for Germany. *)
Definition detachment_of (country_code : option string) (row : list string)
  : list Address :=
  match row with
  | location :: box_num :: _ =>
      [address_of "105" location (Some BFPOScraperSimple.ISOLATED_DETACHMENT_POSTCODE)
                  (Some "Germany") "detachment" (Some box_num) country_code]
  | _ => []
  end.

(** The sort key of an address that has a [BfpoNum]. *)
Definition key_of (addr : Address) : Z :=
  BFPOScraperSimple.sort_key_of (default EmptyString (addr !! "BfpoNum")).



(** A method returns: it raises no exception, whatever the state. *)
Definition returns {A} (m : M Scraper A) : Prop :=
  forall s, exists a, fst (m s) = Ok a.




(* ===================================================================== *)
(** * Reading the written document back                                   *)
(* ===================================================================== *)

Module ReadBack.








(** The keys [generate_xml] writes. *)
Definition written_keys : list string :=
  ["BfpoNum"; "BoxNum"; "Loc"; "PstCd"; "Ctry"; "CtryCd"; "Type"].



End ReadBack.

(** ** The shape of the text the libraries write *)

Module XmlShape.





(** A name of an element. *)
Definition valid_name (tag : string) : bool :=
  match tag with
  | EmptyString => false
  | String c s => Xml.is_name_start c && Py.all_chars Xml.is_name_char s
  end.







(** The fields [generate_xml] writes for an address, in their order. *)
Definition fields_of (addr : Address) : list (string * string) :=
  let field key :=
    match addr !! key with Some v => [(key, v)] | None => [] end in
  field "BfpoNum" ++ field "BoxNum" ++ field "Loc" ++ field "PstCd" ++ field "Ctry"
  ++ (match addr !! "CtryCd" with
      | Some v => if Py.truthy v then [("CtryCd", v)] else []
      | None => []
      end)
  ++ field "Type".

(** The element of an address in the tree of [generate_xml]. *)
Definition element_of_fields (fields : list (string * string)) : Xml.Element :=
  Xml.Elem "BFFO_Address" None
           (map (fun f => BFPOScraperSimple.text_element (fst f) (snd f)) fields).






















End XmlShape.

(** An address with a country and without a code. *)
Definition is_unmapped (addr : Address) : bool :=
  BFPOScraperSimple.has_key "Ctry" addr && negb (BFPOScraperSimple.has_key "CtryCd" addr).

(** A method only appends to the list of addresses, whether it returns or
    raises, and every record it appends satisfies [Q]. *)
Definition appends_only {A} (Q : Address -> Prop) (m : M Scraper A) : Prop :=
  forall s, exists new, addresses (snd (m s)) = addresses s ++ new /\ Forall Q new.

(** The test of [parse_fcdo_ods] on a cell: [v == 'nan' or v == '']. *)
Definition is_blank (v : string) : bool := String.eqb v "nan" || String.eqb v "".

(** What holds of a record made from the spreadsheet. *)
Definition fcdo_record (a : Address) : Prop :=
  a !! "Type" = Some "fcdo"
  /\ a !! "BoxNum" = None
  /\ (exists cell, a !! "Loc" = Some (Py.strip cell)
                   /\ is_blank (Py.strip cell) = false
                   /\ a !! "Ctry"
                      = BFPOScraperSimple._infer_country_from_location (Py.strip cell))
  /\ (exists cell, a !! "BfpoNum" = Some (BFPOScraperSimple.prefixed (Py.strip cell))
                   /\ is_blank (Py.strip cell) = false)
  /\ (forall postcode, a !! "PstCd" = Some postcode ->
        is_blank postcode = false /\ exists cell, postcode = Py.strip cell).

(** The sections in the order in which [scrape_gov_uk_bfpo] parses them. *)
Definition all_sections : list section :=
  [Germany; UK; Europe; World; Ships; NavalParties; Operations; Exercises;
   IsolatedDetachments].

(** The rows of a section; none when its heading or its table is missing. *)
Definition rows_of (soup : Soup) (sec : section) : list (list string) :=
  match soup sec with
  | TableRows rows => rows
  | HeadingNotFound | TableNotFound => []
  end.

(** The number of cells a row needs for its section's parser to use it
    ([if len(row) >= n]). *)
Definition min_cells (sec : section) : nat :=
  match sec with
  | Europe | World => 4
  | IsolatedDetachments => 2
  | Germany | UK | Ships | NavalParties | Operations | Exercises => 3
  end.

(** The type a section's parser gives to its records. *)
Definition section_type (sec : section) : string :=
  match sec with
  | Germany | UK | Europe | World => "static"
  | Ships => "ship"
  | NavalParties => "navalparty"
  | Operations => "operation"
  | Exercises => "exercise"
  | IsolatedDetachments => "detachment"
  end.

(** The type, the location and the number of a record. *)
Definition summary (a : Address) : option string * option string * option string :=
  (a !! "Type", a !! "Loc", a !! "BfpoNum").

(** The same for the record of a row: the location is the first cell; the
    number is the second cell with its prefix, but for a detachment, where
    the second cell is the box number and the number is 105. *)
Definition row_summary (sec : section) (row : list string)
  : option string * option string * option string :=
  (Some (section_type sec),
   head row,
   match sec with
   | IsolatedDetachments => Some "BFPO 105"
   | _ => BFPOScraperSimple.prefixed <$> row !! 1%nat
   end).

Definition section_summaries (soup : Soup) (sec : section)
  : list (option string * option string * option string) :=
  map (row_summary sec)
      (List.filter (fun row => (min_cells sec <=? length row)%nat) (rows_of soup sec)).

Definition page_summaries (soup : Soup)
  : list (option string * option string * option string) :=
  flat_map (section_summaries soup) all_sections.

(** A method returns and appends records with the given summaries. *)
Definition appends (m : M Scraper unit)
           (expected : list (option string * option string * option string)) : Prop :=
  forall s, exists s' new,
    m s = (Ok tt, s')
    /\ addresses s' = addresses s ++ new
    /\ map summary new = expected.

(** The names of the numbered column groups from [i] on, [k] of them. *)
Definition numbered_from (i k : nat) : list (string * string * string) :=
  map BFPOScraperSimple.numbered_group (seq i k).

(* ===================================================================== *)
(** * Facts about the string primitives                                   *)
(* ===================================================================== *)

Module PyFacts.

(** The two equations of [+:+], which [simpl] does not unfold. *)
Lemma append_nil (t : string) : "" +:+ t = t.
Proof. reflexivity. Qed.

Lemma append_cons (c : ascii) (s t : string) : String c s +:+ t = String c (s +:+ t).
Proof. reflexivity. Qed.

Lemma append_empty_r (s : string) : s +:+ "" = s.
Proof.
  induction s as [|c s IH]; [reflexivity |].
  now rewrite append_cons, IH.
Qed.

Lemma append_assoc (a b c : string) : (a +:+ b) +:+ c = a +:+ (b +:+ c).
Proof.
  induction a as [|x a IH]; [reflexivity |].
  now rewrite !append_cons, IH.
Qed.

Lemma prefix_append (p s : string) : String.prefix p (p +:+ s) = true.
Proof.
  induction p as [|c p IH].
  - now destruct s.
  - rewrite append_cons. simpl. destruct (ascii_dec c c); [exact IH | congruence].
Qed.

Lemma map_chars_append (f : ascii -> ascii) (a b : string) :
  Py.map_chars f (a +:+ b) = Py.map_chars f a +:+ Py.map_chars f b.
Proof.
  induction a as [|c a IH]; [reflexivity |].
  rewrite append_cons. simpl. now rewrite IH, append_cons.
Qed.


Lemma truthy_true (s : string) : Py.truthy s = true <-> s <> "".
Proof. destruct s; simpl; split; congruence. Qed.

Lemma truthy_false (s : string) : Py.truthy s = false <-> s = "".
Proof. destruct s; simpl; split; congruence. Qed.

End PyFacts.

Example upper_bfpo : Py.upper "bfpo 15" = "BFPO 15".
Proof. reflexivity. Qed.

Example title_hyphens : Py.title "not-a-real-country" = "Not-A-Real-Country".
Proof. reflexivity. Qed.

Example replace_every_occurrence : Py.replace "BFPO 1BFPO 2" "BFPO " "" = "12".
Proof. reflexivity. Qed.

Example strip_both_ends : Py.strip "  ab c  " = "ab c".
Proof. reflexivity. Qed.

Example int_leading_zeros : Py.int "005" = 5%Z.
Proof. reflexivity. Qed.

Example isdigit_empty : Py.isdigit "" = false.
Proof. reflexivity. Qed.

Example str_of_nat_12 : Py.str_of_nat 12 = "12".
Proof. reflexivity. Qed.

(* ===================================================================== *)
(** * The [BFPO] prefix                                                   *)
(* ===================================================================== *)

Module Prefix.

Import BFPOScraperSimple.

(** A number without the prefix, in whatever case, gets ["BFPO "] put in
    front of it. *)
Lemma prefixed_adds (bfpo_num : string) :
  Py.startswith (Py.upper bfpo_num) "BFPO" = false ->
  prefixed bfpo_num = "BFPO " +:+ bfpo_num.
Proof. intros H. unfold prefixed. now rewrite H. Qed.

(** A number that has the prefix, in whatever case, is kept as it is. *)
Lemma prefixed_keeps (bfpo_num : string) :
  Py.startswith (Py.upper bfpo_num) "BFPO" = true ->
  prefixed bfpo_num = bfpo_num.
Proof. intros H. unfold prefixed. now rewrite H. Qed.

(** In upper case the stored value always starts with [BFPO]. *)
Lemma prefixed_upper_startswith (bfpo_num : string) :
  Py.startswith (Py.upper (prefixed bfpo_num)) "BFPO" = true.
Proof.
  unfold prefixed.
  destruct (Py.startswith (Py.upper bfpo_num) "BFPO") eqn:E; simpl; [exact E |].
  reflexivity.
Qed.

(** Prefixing twice is prefixing once. *)
Lemma prefixed_idempotent (bfpo_num : string) :
  prefixed (prefixed bfpo_num) = prefixed bfpo_num.
Proof. apply prefixed_keeps, prefixed_upper_startswith. Qed.

(** The stored value is never empty. *)
Lemma prefixed_nonempty (bfpo_num : string) : prefixed bfpo_num <> "".
Proof.
  intros H. pose proof (prefixed_upper_startswith bfpo_num) as U.
  rewrite H in U. discriminate U.
Qed.

Example prefixed_15 : prefixed "15" = "BFPO 15".
Proof. reflexivity. Qed.

Example prefixed_BFPO_15 : prefixed "BFPO 15" = "BFPO 15".
Proof. reflexivity. Qed.

End Prefix.

(* ===================================================================== *)
(** * The country code resolver                                           *)
(* ===================================================================== *)

(** Unfold the monad. *)
Ltac unfold_monad :=
  unfold mbind, M_bind, mret, M_ret, bind, ret, call, raise, try_except, modify,
    get_state, zoom in *.

Module ResolverFacts.

Import CountryCodeResolver ResolutionOrder.

Section WithDatabase.

Variable db : Pycountry.

(** One [try] block around [get]: with a library that raises only what the
    block catches, it yields what the catalogue lookup yields. *)
Lemma try_get_run (f : field) (value : string) (out : Stdout) :
  well_behaved db ->
  try_get db f value out = (Ok (catalogue_lookup db f value), out).
Proof.
  intros [Hget _]. unfold try_get, catalogue_lookup. unfold_monad.
  destruct (countries_get db f value) as [[c|]|e] eqn:E; try reflexivity.
  now rewrite (Hget _ _ _ E).
Qed.

Lemma try_search_fuzzy_run (country_name : string) (out : Stdout) :
  well_behaved db ->
  try_search_fuzzy db country_name out = (Ok (fuzzy_lookup db country_name), out).
Proof.
  intros [_ Hfuzzy]. unfold try_search_fuzzy, fuzzy_lookup. unfold_monad.
  destruct (countries_search_fuzzy db country_name) as [[|c l]|e] eqn:E; try reflexivity.
  now rewrite (Hfuzzy _ _ E).
Qed.

Lemma try_variations_run (variations : list string) (out : Stdout) :
  well_behaved db ->
  try_variations db variations out
  = (Ok (first_match (map (fun v _ => catalogue_lookup db by_common_name v) variations) ""),
     out).
Proof.
  intros Hwb. induction variations as [|v rest IH]; [reflexivity |].
  simpl. unfold mbind, M_bind, bind. rewrite try_get_run by assumption.
  destruct (catalogue_lookup db by_common_name v); [reflexivity | exact IH].
Qed.

(** The method follows the resolution order on every name that is not
    empty. *)
Lemma get_country_code_resolve (country_name : string) (out : Stdout) :
  well_behaved db ->
  country_name <> "" ->
  get_country_code db country_name out
  = (Ok (fst (resolve db country_name)), out ++ snd (resolve db country_name)).
Proof.
  intros Hwb Hne. unfold get_country_code, resolve, resolution_order.
  apply PyFacts.truthy_true in Hne. rewrite Hne. simpl.
  unfold override_lookup.
  destruct (SPECIAL_CASES !! country_name) as [code|];
    [simpl; now rewrite app_nil_r |].
  unfold mbind, M_bind, bind. rewrite try_get_run by assumption.
  unfold exact_name_lookup.
  destruct (catalogue_lookup db by_name country_name);
    [simpl; now rewrite app_nil_r |].
  rewrite try_search_fuzzy_run by assumption.
  destruct (fuzzy_lookup db country_name); [simpl; now rewrite app_nil_r |].
  unfold mbind, M_bind, bind, case_variant_lookup. simpl first_match.
  rewrite try_get_run by assumption.
  destruct (catalogue_lookup db by_common_name (Py.upper country_name));
    [simpl; now rewrite app_nil_r |].
  rewrite try_get_run by assumption.
  destruct (catalogue_lookup db by_common_name (Py.lower country_name));
    [simpl; now rewrite app_nil_r |].
  rewrite try_get_run by assumption.
  destruct (catalogue_lookup db by_common_name (Py.title country_name));
    [simpl; now rewrite app_nil_r |].
  reflexivity.
Qed.

(** The empty name is answered at once: no lookup and no warning. *)
Lemma get_country_code_empty (out : Stdout) :
  get_country_code db "" out = (Ok None, out).
Proof. reflexivity. Qed.

(** The method returns, whatever the name. *)
Lemma get_country_code_returns (country_name : string) (out : Stdout) :
  well_behaved db ->
  exists code out', get_country_code db country_name out = (Ok code, out').
Proof.
  intros Hwb. destruct country_name as [|c s].
  - exists None, out. reflexivity.
  - eexists _, _. now apply get_country_code_resolve.
Qed.

(** A name of the override table is answered from the table, whatever the
    catalogue holds. *)
Lemma get_country_code_override (country_name code : string) (out : Stdout) :
  SPECIAL_CASES !! country_name = Some code ->
  get_country_code db country_name out = (Ok (Some code), out).
Proof.
  intros H. unfold get_country_code.
  destruct country_name as [|c s]; [discriminate H |].
  simpl Py.truthy. simpl negb. cbv iota. now rewrite H.
Qed.

(** The code is never the empty string when it comes from the override
    table. *)
Lemma special_cases_nonempty (country_name : string) :
  SPECIAL_CASES !! country_name <> Some "".
Proof.
  unfold SPECIAL_CASES, SPECIAL_CASES_items. simpl.
  repeat (rewrite lookup_insert; case_decide; [discriminate |]).
  now rewrite lookup_empty.
Qed.

End WithDatabase.

(** An exception the method does not prepare for escapes it. *)
Example get_country_code_can_raise :
  let db := {| countries_get := fun _ _ => Raise ValueError;
               countries_search_fuzzy := fun _ => Raise LookupError |} in
  get_country_code db "Germany" [] = (Raise ValueError, []).
Proof. reflexivity. Qed.

(** The sample databases raise only what the resolver catches. *)
Lemma sample_db_well_behaved : well_behaved Sample.db.
Proof.
  split.
  - intros f s e H. discriminate H.
  - intros s e H. cbv [Sample.db countries_search_fuzzy] in H.
    destruct (List.filter _ Sample.catalogue) in H;
      [injection H as <-; reflexivity | discriminate H].
Qed.

Lemma sample_db_raising_well_behaved : well_behaved Sample.db_raising.
Proof.
  split.
  - intros f s e H. cbv [Sample.db_raising countries_get] in H.
    destruct (List.find _ Sample.catalogue) in H;
      [discriminate H | injection H as <-; reflexivity].
  - apply sample_db_well_behaved.
Qed.

(** The outcome of [validate_country_code], case by case. *)
Lemma validate_country_code_run (db : Pycountry) (code : string) (out : Stdout) :
  validate_country_code db code out
  = (if negb (Py.truthy code) || negb (String.length code =? 2)%nat then Ok false
     else if bool_decide (code ∈ SPECIAL_CASES_values) then Ok true
     else match countries_get db by_alpha_2 (Py.upper code) with
          | Ok _ => Ok true
          | Raise e => if caught_by [KeyError; AttributeError] e then Ok false else Raise e
          end,
     out).
Proof.
  unfold validate_country_code.
  destruct (negb (Py.truthy code) || negb (String.length code =? 2)%nat); [reflexivity |].
  destruct (bool_decide (code ∈ SPECIAL_CASES_values)); [reflexivity |].
  unfold_monad.
  destruct (countries_get db by_alpha_2 (Py.upper code)) as [c | e]; [reflexivity |].
  destruct (caught_by [KeyError; AttributeError] e); reflexivity.
Qed.

(** With a library that raises [KeyError] for every code it does not know,
    the answer is [True] exactly for the two-character strings that are an
    override value or a code of the catalogue. *)
Lemma validate_country_code_when_get_raises (db : Pycountry) (code : string)
      (out : Stdout) :
  (forall c, countries_get db by_alpha_2 (Py.upper code) = Ok c -> c <> None) ->
  well_behaved db ->
  exists b : bool,
    validate_country_code db code out = (Ok b, out)
    /\ (b = true <->
        String.length code = 2
        /\ (code ∈ SPECIAL_CASES_values
            \/ exists c, countries_get db by_alpha_2 (Py.upper code) = Ok (Some c))).
Proof.
  intros Hnone [Hget _]. rewrite validate_country_code_run.
  destruct (negb (Py.truthy code) || negb (String.length code =? 2)%nat) eqn:E1.
  - exists false. split; [reflexivity |]. split; [discriminate |]. intros [Hlen _].
    destruct code as [|a [|b [|]]]; simpl in *; discriminate.
  - apply orb_false_iff in E1 as [_ E1]. apply negb_false_iff, Nat.eqb_eq in E1.
    destruct (bool_decide (code ∈ SPECIAL_CASES_values)) eqn:E2.
    + apply bool_decide_eq_true in E2. exists true. repeat split; auto.
    + apply bool_decide_eq_false in E2.
      destruct (countries_get db by_alpha_2 (Py.upper code)) as [[c|] | e] eqn:E3.
      * exists true. repeat split; eauto.
      * exfalso. now apply (Hnone None).
      * rewrite (Hget _ _ _ E3). exists false. split; [reflexivity |].
        split; [discriminate |].
        intros [_ [H | [c H]]]; [contradiction | discriminate].
Qed.

End ResolverFacts.

(** C3.  [validate_country_code] looks only at whether [get] raises: when
    the library answers [None] for a code it does not know, a
    two-character string that is neither an override value nor a code of
    the catalogue is declared valid. *)
Theorem validate_country_code_accepts_unknown_code
        (db : Pycountry) (code : string) (out : Stdout) :
  String.length code = 2 ->
  code ∉ CountryCodeResolver.SPECIAL_CASES_values ->
  countries_get db by_alpha_2 (Py.upper code) = Ok None ->
  CountryCodeResolver.validate_country_code db code out = (Ok true, out).
Proof.
  intros Hlen Hval Hget. rewrite ResolverFacts.validate_country_code_run, Hget.
  rewrite (bool_decide_eq_false_2 _ Hval).
  now destruct code as [|a [|b [|]]]; try discriminate Hlen.
Qed.

Lemma validate_country_code_accepts_unknown_code_witness :
  String.length "ZZ" = 2
  /\ ("ZZ" ∉ CountryCodeResolver.SPECIAL_CASES_values)
  /\ countries_get Sample.db by_alpha_2 (Py.upper "ZZ") = Ok None
  /\ CountryCodeResolver.validate_country_code Sample.db "ZZ" [] = (Ok true, []).
Proof.
  assert (H1 : String.length "ZZ" = 2) by reflexivity.
  assert (H2 : "ZZ" ∉ CountryCodeResolver.SPECIAL_CASES_values)
    by (refine (proj1 (bool_decide_eq_false _) _); reflexivity).
  assert (H3 : countries_get Sample.db by_alpha_2 (Py.upper "ZZ") = Ok None)
    by reflexivity.
  split; [exact H1 |]. split; [exact H2 |]. split; [exact H3 |].
  exact (validate_country_code_accepts_unknown_code Sample.db "ZZ" [] H1 H2 H3).
Defined.

(** C4, as stated, fails on the empty name: the resolution order finds a
    code for it in a catalogue whose fuzzy search matches every name, and the
    method answers [None] before any lookup. *)
Lemma get_country_code_empty_name_skips_order :
  CountryCodeResolver.get_country_code Sample.db "" []
  <> (Ok (fst (ResolutionOrder.resolve Sample.db "")),
      [] ++ snd (ResolutionOrder.resolve Sample.db "")).
Proof. vm_compute. discriminate. Qed.

(** C4 (amended).  The empty name is answered [None] at once, without a
    warning.  On every other name the method applies, first match wins, the
    order: override table, exact name, fuzzy search (top candidate), upper,
    lower and title case against the common names; when none matches it
    prints the warning and returns [None]; it does not raise.  ["Holland"]
    is answered ["NL"] from the override table whatever the catalogue;
    ["Germany"] is answered ["DE"] by the exact match of a catalogue that
    has it; ["Not-A-Real-Country"] is answered [None], with the warning,
    when no lookup matches it. *)
Theorem get_country_code_first_match_wins (db : Pycountry) :
  well_behaved db ->
  (forall out, CountryCodeResolver.get_country_code db "" out = (Ok None, out))
  /\ (forall country_name out,
        country_name <> "" ->
        CountryCodeResolver.get_country_code db country_name out
        = (Ok (fst (ResolutionOrder.resolve db country_name)),
           out ++ snd (ResolutionOrder.resolve db country_name)))
  /\ (forall out,
        CountryCodeResolver.get_country_code db "Holland" out = (Ok (Some "NL"), out))
  /\ (forall out,
        ResolutionOrder.exact_name_lookup db "Germany" = Some "DE" ->
        CountryCodeResolver.get_country_code db "Germany" out = (Ok (Some "DE"), out))
  /\ (forall out,
        ResolutionOrder.first_match (ResolutionOrder.resolution_order db)
                                    "Not-A-Real-Country" = None ->
        CountryCodeResolver.get_country_code db "Not-A-Real-Country" out
        = (Ok None, out ++ [CouldNotMapCountry "Not-A-Real-Country"])).
Proof.
  intros Hwb. split; [| split; [| split; [| split]]].
  - intros out. apply ResolverFacts.get_country_code_empty.
  - intros n out Hne. now apply ResolverFacts.get_country_code_resolve.
  - intros out. now apply ResolverFacts.get_country_code_override.
  - intros out H.
    rewrite ResolverFacts.get_country_code_resolve by (assumption || discriminate).
    unfold ResolutionOrder.resolve, ResolutionOrder.resolution_order.
    simpl ResolutionOrder.first_match.
    replace (ResolutionOrder.override_lookup "Germany") with (@None string) by reflexivity.
    rewrite H. simpl. now rewrite app_nil_r.
  - intros out H.
    rewrite ResolverFacts.get_country_code_resolve by (assumption || discriminate).
    unfold ResolutionOrder.resolve. now rewrite H.
Qed.

Lemma get_country_code_first_match_wins_witness :
  well_behaved Sample.db
  /\ CountryCodeResolver.get_country_code Sample.db "Holland" [] = (Ok (Some "NL"), [])
  /\ CountryCodeResolver.get_country_code Sample.db "Germany" [] = (Ok (Some "DE"), [])
  /\ CountryCodeResolver.get_country_code Sample.db "Not-A-Real-Country" []
     = (Ok None, [CouldNotMapCountry "Not-A-Real-Country"]).
Proof.
  pose proof (get_country_code_first_match_wins Sample.db
                ResolverFacts.sample_db_well_behaved) as (_ & _ & H3 & H4 & H5).
  split; [exact ResolverFacts.sample_db_well_behaved |].
  split; [exact (H3 []) |].
  split; [exact (H4 [] eq_refl) |].
  exact (H5 [] eq_refl).
Defined.

(* ===================================================================== *)
(** * [_add_address]                                                      *)
(* ===================================================================== *)

Module AddAddress.

Import BFPOScraperSimple.

Lemma set_stdout_same (s : Scraper) : set_stdout (stdout s) s = s.
Proof. now destruct s. Qed.

(** One call: the resolver is asked (when there is a country), and the
    record is appended; an exception of the resolver leaves the list as it
    was. *)
Lemma add_address_run (db : Pycountry) (bfpo_num location : string)
      (postcode country : option string) (bfpo_type : string)
      (box_num : option string) (s : Scraper) :
  _add_address db bfpo_num location postcode country bfpo_type box_num s
  = match resolver_answer db country (stdout s) with
    | (Ok code, out) =>
        (Ok tt,
         set_addresses
           (fun l => l ++ [address_of bfpo_num location postcode country bfpo_type
                                      box_num code])
           (set_stdout out s))
    | (Raise e, out) => (Raise e, set_stdout out s)
    end.
Proof.
  unfold _add_address, resolver_answer, address_of, printing. unfold_monad.
  destruct country as [c|]; [destruct (Py.truthy c) eqn:Ec |].
  - destruct (CountryCodeResolver.get_country_code db c (stdout s)) as [[code|e] out];
      reflexivity.
  - now rewrite set_stdout_same.
  - now rewrite set_stdout_same.
Qed.

Lemma lookup_set_if_truthy (key k : string) (value : option string) (a : Address) :
  set_if_truthy key value a !! k
  = if decide (key = k) then
      match kept value with Some v => Some v | None => a !! k end
    else a !! k.
Proof.
  unfold set_if_truthy, kept.
  destruct value as [v|]; simpl; [destruct (Py.truthy v) |];
    rewrite ?lookup_insert; case_decide; reflexivity.
Qed.

Section Fields.

Variables (bfpo_num location : string) (postcode country : option string)
          (bfpo_type : string) (box_num country_code : option string).

Let address :=
  address_of bfpo_num location postcode country bfpo_type box_num country_code.

Ltac lookup_field :=
  unfold address, address_of;
  destruct country as [c|]; [destruct (Py.truthy c) eqn:Ec |];
  repeat (rewrite lookup_set_if_truthy || rewrite lookup_insert);
  repeat (case_decide; try congruence);
  rewrite ?lookup_empty; try reflexivity.

Lemma address_BfpoNum : address !! "BfpoNum" = Some (prefixed bfpo_num).
Proof. lookup_field. Qed.

Lemma address_Loc : address !! "Loc" = Some location.
Proof. lookup_field. Qed.

Lemma address_Type : address !! "Type" = Some bfpo_type.
Proof. lookup_field. Qed.

Lemma address_BoxNum : address !! "BoxNum" = kept box_num.
Proof. lookup_field; now destruct (kept box_num). Qed.

Lemma address_PstCd : address !! "PstCd" = kept postcode.
Proof. lookup_field; now destruct (kept postcode). Qed.

Lemma address_Ctry : address !! "Ctry" = kept country.
Proof. lookup_field; unfold kept; simpl; now rewrite ?Ec. Qed.

Lemma address_CtryCd :
  address !! "CtryCd" = if Py.truthy_opt country then kept country_code else None.
Proof. lookup_field; simpl; rewrite ?Ec; try reflexivity. now destruct (kept country_code). Qed.

(** The record has no other key. *)
Lemma address_keys (k : string) :
  is_Some (address !! k) ->
  k ∈ ["BfpoNum"; "BoxNum"; "Loc"; "PstCd"; "Ctry"; "CtryCd"; "Type"].
Proof.
  unfold address, address_of. intros [v Hv].
  rewrite !elem_of_cons.
  destruct (decide (k = "BfpoNum")); [tauto |].
  destruct (decide (k = "BoxNum")); [tauto |].
  destruct (decide (k = "Loc")); [tauto |].
  destruct (decide (k = "PstCd")); [tauto |].
  destruct (decide (k = "Ctry")); [tauto |].
  destruct (decide (k = "CtryCd")); [tauto |].
  destruct (decide (k = "Type")); [tauto |].
  exfalso.
  destruct country as [c|]; [destruct (Py.truthy c) |];
    repeat (rewrite lookup_set_if_truthy in Hv || rewrite lookup_insert in Hv);
    repeat (case_decide; try congruence);
    rewrite ?lookup_empty in Hv; discriminate.
Qed.

End Fields.


Lemma kept_Some (value : option string) (v : string) :
  kept value = Some v <-> value = Some v /\ v <> "".
Proof.
  unfold kept. destruct value as [[|c s]|]; simpl; split;
    try intros [H1 H2]; try congruence.
  intros [= <-]. split; congruence.
Qed.

Lemma kept_is_Some (value : option string) :
  is_Some (kept value) <-> Py.truthy_opt value = true.
Proof.
  unfold kept. destruct (Py.truthy_opt value) eqn:E.
  - destruct value; [split; eauto | discriminate E].
  - split; [intros [v Hv]; discriminate Hv | discriminate].
Qed.

End AddAddress.

(* ===================================================================== *)
(** * Properties of every collected record                                *)
(* ===================================================================== *)

Module Invariants.

Import BFPOScraperSimple.

Section Preserves.

Variable Q : Address -> Prop.

Lemma preserves_ret {A} (a : A) : preserves Q (ret a).
Proof. intros s H. exact H. Qed.

Lemma preserves_call {A} (r : result A) : preserves Q (call r).
Proof. intros s H. exact H. Qed.

Lemma preserves_raise {A} (e : exn) : preserves Q (@raise Scraper A e).
Proof. intros s H. exact H. Qed.

Lemma preserves_get_state : preserves Q get_state.
Proof. intros s H. exact H. Qed.

Lemma preserves_bind {A B} (m : M Scraper A) (k : A -> M Scraper B) :
  preserves Q m -> (forall a, preserves Q (k a)) -> preserves Q (mbind k m).
Proof.
  intros Hm Hk s H. unfold mbind, M_bind, bind. specialize (Hm s H).
  destruct (m s) as [[a|e] s1]; simpl in *; [now apply Hk | exact Hm].
Qed.

Lemma preserves_try_except {A} (body : M Scraper A) (classes : list exn)
      (handler : exn -> M Scraper A) :
  preserves Q body -> (forall e, preserves Q (handler e)) ->
  preserves Q (try_except body classes handler).
Proof.
  intros Hb Hh s H. unfold try_except. specialize (Hb s H).
  destruct (body s) as [[a|e] s1]; simpl in *; [exact Hb |].
  destruct (caught_by classes e); [now apply Hh | exact Hb].
Qed.

Lemma preserves_for_each {A} (xs : list A) (body : A -> M Scraper unit) :
  (forall x, preserves Q (body x)) -> preserves Q (for_each xs body).
Proof.
  intros Hb. induction xs as [|x xs IH]; simpl.
  - apply preserves_ret.
  - intros s H. unfold bind. specialize (Hb x s H).
    destruct (body x s) as [[[]|e] s1]; simpl in *; [now apply IH | exact Hb].
Qed.

Lemma preserves_printing {A} (m : M Stdout A) : preserves Q (printing m).
Proof.
  intros s H. unfold printing, zoom. now destruct (m (stdout s)).
Qed.

Lemma preserves_set_output_document (doc : string) :
  preserves Q (modify (set_output_document doc)).
Proof. intros s H. exact H. Qed.

(** [_add_address] keeps the property when the record it appends has
    it. *)
Lemma preserves_add_address (db : Pycountry) (bfpo_num location : string)
      (postcode country : option string) (bfpo_type : string)
      (box_num : option string) :
  (forall code, Q (address_of bfpo_num location postcode country bfpo_type box_num code)) ->
  preserves Q (_add_address db bfpo_num location postcode country bfpo_type box_num).
Proof.
  intros HQ s H. rewrite AddAddress.add_address_run.
  destruct (resolver_answer db country (stdout s)) as [[code|e] out]; simpl; [| exact H].
  apply Forall_app. split; [exact H |]. constructor; [apply HQ | constructor].
Qed.

Lemma preserves_for_rows_of (soup : Soup) (sec : section) (title : string)
      (body : list string -> M Scraper unit) :
  (forall row, preserves Q (body row)) ->
  preserves Q (for_rows_of soup sec title body).
Proof.
  intros Hb. unfold for_rows_of. destruct (soup sec).
  - apply preserves_printing.
  - apply preserves_ret.
  - now apply preserves_for_each.
Qed.

End Preserves.

(** The type of a record of the other kind. *)
Ltac other_type := apply produced_other; rewrite !elem_of_cons; tauto.

Section Collected.

Variable db : Pycountry.

Ltac section_parser :=
  intros soup; apply preserves_for_rows_of; intros row;
  destruct row as [|row0 [|row1 [|row2 [|row3 rest]]]];
  try apply preserves_ret;
  apply preserves_add_address; intros code;
  first [other_type | apply produced_detachment].

Lemma preserves_germany : forall soup, preserves produced (_parse_germany_locations db soup).
Proof. section_parser. Qed.

Lemma preserves_uk : forall soup, preserves produced (_parse_uk_locations db soup).
Proof. section_parser. Qed.

Lemma preserves_europe : forall soup, preserves produced (_parse_europe_locations db soup).
Proof. section_parser. Qed.

Lemma preserves_world : forall soup, preserves produced (_parse_world_locations db soup).
Proof. section_parser. Qed.

Lemma preserves_ships : forall soup, preserves produced (_parse_ships db soup).
Proof. section_parser. Qed.

Lemma preserves_naval_parties :
  forall soup, preserves produced (_parse_naval_parties db soup).
Proof. section_parser. Qed.

Lemma preserves_operations : forall soup, preserves produced (_parse_operations db soup).
Proof. section_parser. Qed.

Lemma preserves_exercises : forall soup, preserves produced (_parse_exercises db soup).
Proof. section_parser. Qed.

Lemma preserves_isolated_detachments :
  forall soup, preserves produced (_parse_isolated_detachments db soup).
Proof. section_parser. Qed.

Lemma preserves_scrape_gov_uk_bfpo (fetch : result Soup) :
  preserves produced (scrape_gov_uk_bfpo db fetch).
Proof.
  unfold scrape_gov_uk_bfpo. apply preserves_try_except.
  - apply preserves_bind; [apply preserves_call | intros soup].
    repeat (apply preserves_bind; [| intros _]);
      auto using preserves_germany, preserves_uk, preserves_europe, preserves_world,
        preserves_ships, preserves_naval_parties, preserves_operations,
        preserves_exercises, preserves_isolated_detachments.
  - intros e. apply preserves_bind; [apply preserves_printing | intros _].
    apply preserves_raise.
Qed.

Lemma preserves_parse_fcdo_cells (row : gmap string string)
      (group : string * string * string) :
  preserves produced (parse_fcdo_cells db row group).
Proof.
  destruct group as [[loc_col bfpo_col] post_col]. unfold parse_fcdo_cells.
  apply preserves_try_except; [| intros e; apply preserves_ret].
  apply preserves_bind; [apply preserves_call | intros location].
  apply preserves_bind; [apply preserves_call | intros bfpo_num].
  apply preserves_bind; [apply preserves_call | intros postcode].
  match goal with |- context [if ?b then ret tt else _] => destruct b end;
    [apply preserves_ret |].
  apply preserves_add_address. intros code. other_type.
Qed.

Lemma preserves_parse_fcdo_ods (read_excel : string -> result DataFrame)
      (ods_file : string) :
  preserves produced (parse_fcdo_ods db read_excel ods_file).
Proof.
  unfold parse_fcdo_ods. apply preserves_try_except.
  - apply preserves_bind; [apply preserves_call | intros df].
    apply preserves_for_each. intros row. apply preserves_for_each. intros group.
    apply preserves_parse_fcdo_cells.
  - intros e. apply preserves_printing.
Qed.

Lemma preserves_download_fcdo_ods (fetch : result string) :
  preserves produced (download_fcdo_ods fetch).
Proof.
  unfold download_fcdo_ods. apply preserves_try_except.
  - apply preserves_bind; [apply preserves_call | intros path; apply preserves_ret].
  - intros e. apply preserves_bind; [apply preserves_printing | intros _].
    apply preserves_ret.
Qed.

Lemma preserves_collect (env : Environment) (fcdo_ods_file : option string) :
  preserves produced (collect db env fcdo_ods_file).
Proof.
  unfold collect.
  apply preserves_bind; [apply preserves_scrape_gov_uk_bfpo | intros _].
  apply preserves_bind.
  - destruct (Py.truthy_opt fcdo_ods_file);
      [apply preserves_ret | apply preserves_download_fcdo_ods].
  - intros [path|]; [| apply preserves_printing].
    destruct (Py.truthy path); [| apply preserves_printing].
    destruct (path_exists env path);
      [apply preserves_parse_fcdo_ods | apply preserves_printing].
Qed.

End Collected.

End Invariants.

(* ===================================================================== *)
(** * The sort of [generate_xml]                                          *)
(* ===================================================================== *)

Module SortFacts.

Import BFPOScraperSimple.

Section Keyed.

Context {A : Type}.

Implicit Types (x : Z * A) (l : list (Z * A)).

Lemma insert_keyed_perm x l : Permutation (insert_keyed x l) (x :: l).
Proof.
  induction l as [|y l IH]; simpl; [reflexivity |].
  destruct (fst x <=? fst y)%Z; [reflexivity |].
  rewrite IH. apply perm_swap.
Qed.

Lemma sort_keyed_perm l : Permutation (sort_keyed l) l.
Proof.
  induction l as [|x l IH]; simpl; [reflexivity |].
  rewrite insert_keyed_perm. now constructor.
Qed.





Lemma keyed_total (key : A -> Z) (l : list A) :
  keyed (fun a => Ok (key a)) l = Ok (map (fun a => (key a, a)) l).
Proof. induction l as [|a l IH]; simpl; [reflexivity | now rewrite IH]. Qed.

Lemma keyed_snd (key : A -> result Z) (l : list A) kl :
  keyed key l = Ok kl -> map snd kl = l.
Proof.
  revert kl. induction l as [|a l IH]; simpl; intros kl H.
  - now injection H as <-.
  - destruct (key a) as [k|e]; [| discriminate H].
    destruct (keyed key l) as [kl'|e]; [| discriminate H].
    injection H as <-. simpl. f_equal. now apply IH.
Qed.

(** The sort keeps the elements. *)
Lemma sort_by_perm (key : A -> result Z) (l sorted : list A) :
  sort_by key l = Ok sorted -> Permutation sorted l.
Proof.
  unfold sort_by. destruct (keyed key l) as [kl|e] eqn:E; [| discriminate].
  intros [= <-]. rewrite <- (keyed_snd _ _ _ E).
  apply Permutation_map, sort_keyed_perm.
Qed.

End Keyed.

(** The key of an address that has a [BfpoNum] is computed without an
    exception. *)
Lemma get_sort_key_ok (addr : Address) :
  is_Some (addr !! "BfpoNum") -> get_sort_key addr = Ok (key_of addr).
Proof.
  intros [v Hv]. unfold get_sort_key, key_of, getitem. now rewrite Hv.
Qed.

Lemma keyed_get_sort_key (l : list Address) :
  Forall (fun a => is_Some (a !! "BfpoNum")) l ->
  keyed get_sort_key l = Ok (map (fun a => (key_of a, a)) l).
Proof.
  induction 1 as [|a l Ha Hl IH]; simpl; [reflexivity |].
  now rewrite get_sort_key_ok, IH.
Qed.



Lemma key_of_address_of (bfpo_num location : string) (postcode country : option string)
      (bfpo_type : string) (box_num country_code : option string) :
  key_of (address_of bfpo_num location postcode country bfpo_type box_num country_code)
  = sort_key_of (prefixed bfpo_num).
Proof. unfold key_of. now rewrite AddAddress.address_BfpoNum. Qed.

(** Sorting addresses made by [_add_address] is sorting on the keys of
    their numbers. *)
Lemma sort_by_address_of (l : list Address) :
  Forall (fun a => is_Some (a !! "BfpoNum")) l ->
  sort_by get_sort_key l = Ok (map snd (sort_keyed (map (fun a => (key_of a, a)) l))).
Proof. intros H. unfold sort_by. now rewrite keyed_get_sort_key. Qed.

Lemma address_of_has_BfpoNum (bfpo_num location : string)
      (postcode country : option string) (bfpo_type : string)
      (box_num country_code : option string) :
  is_Some (address_of bfpo_num location postcode country bfpo_type box_num country_code
           !! "BfpoNum").
Proof. rewrite AddAddress.address_BfpoNum. eauto. Qed.

(** The example of the specification. *)
Example sort_3_105_22_exercise :
  let addr b := address_of b "somewhere" None None "static" None None in
  sort_by get_sort_key [addr "3"; addr "105"; addr "22"; addr "EXERCISE-A"]
  = Ok [addr "3"; addr "22"; addr "105"; addr "EXERCISE-A"].
Proof.
  intros addr.
  rewrite sort_by_address_of by (repeat constructor; apply address_of_has_BfpoNum).
  unfold addr. cbn [map]. rewrite !key_of_address_of.
  change (sort_key_of (prefixed "3")) with 3%Z.
  change (sort_key_of (prefixed "105")) with 105%Z.
  change (sort_key_of (prefixed "22")) with 22%Z.
  change (sort_key_of (prefixed "EXERCISE-A")) with 999%Z.
  reflexivity.
Qed.

End SortFacts.

(** C2.  A record whose identifier is not a number gets the key 999: it is
    sorted before every record whose number is greater than 999, here
    [BFPO 1000], and not after all the numeric ones. *)
Theorem sort_puts_non_numeric_before_1000 :
  let exercise := address_of "EXERCISE-A" "Exercise A" None None "exercise" None None in
  let numeric := address_of "1000" "Somewhere" None None "static" None None in
  exercise !! "BfpoNum" = Some "BFPO EXERCISE-A"
  /\ numeric !! "BfpoNum" = Some "BFPO 1000"
  /\ BFPOScraperSimple.get_sort_key exercise = Ok 999%Z
  /\ BFPOScraperSimple.get_sort_key numeric = Ok 1000%Z
  /\ BFPOScraperSimple.sort_by BFPOScraperSimple.get_sort_key [numeric; exercise]
     = Ok [exercise; numeric].
Proof.
  intros exercise numeric.
  assert (He : BFPOScraperSimple.get_sort_key exercise = Ok 999%Z).
  { rewrite SortFacts.get_sort_key_ok by apply SortFacts.address_of_has_BfpoNum.
    unfold exercise. now rewrite SortFacts.key_of_address_of. }
  assert (Hn : BFPOScraperSimple.get_sort_key numeric = Ok 1000%Z).
  { rewrite SortFacts.get_sort_key_ok by apply SortFacts.address_of_has_BfpoNum.
    unfold numeric. now rewrite SortFacts.key_of_address_of. }
  split; [unfold exercise; now rewrite AddAddress.address_BfpoNum |].
  split; [unfold numeric; now rewrite AddAddress.address_BfpoNum |].
  split; [exact He |]. split; [exact Hn |].
  unfold BFPOScraperSimple.sort_by. cbn [BFPOScraperSimple.keyed].
  rewrite He, Hn. reflexivity.
Qed.

(* ===================================================================== *)
(** * The records of single calls and single rows                         *)
(* ===================================================================== *)

Module Records.

Import BFPOScraperSimple.

Lemma set_addresses_stdout_same (f : list Address -> list Address) (s : Scraper) :
  set_addresses f (set_stdout (stdout s) s) = set_addresses f s.
Proof. now destruct s. Qed.

(** A country found by the exact lookup, and not in the override table. *)
Lemma get_country_code_exact (db : Pycountry) (country_name code : string)
      (out : Stdout) :
  well_behaved db ->
  country_name <> "" ->
  CountryCodeResolver.SPECIAL_CASES !! country_name = None ->
  ResolutionOrder.exact_name_lookup db country_name = Some code ->
  CountryCodeResolver.get_country_code db country_name out = (Ok (Some code), out).
Proof.
  intros Hwb Hne Hsp Hex.
  rewrite ResolverFacts.get_country_code_resolve by assumption.
  unfold ResolutionOrder.resolve, ResolutionOrder.resolution_order.
  simpl ResolutionOrder.first_match. unfold ResolutionOrder.override_lookup.
  rewrite Hsp, Hex. simpl. now rewrite app_nil_r.
Qed.

(** With a library that raises only what the resolver catches, a call of
    [_add_address] returns and appends one record. *)
Lemma add_address_returns (db : Pycountry) (bfpo_num location : string)
      (postcode country : option string) (bfpo_type : string)
      (box_num : option string) (s : Scraper) :
  well_behaved db ->
  exists code out,
    resolver_answer db country (stdout s) = (Ok code, out)
    /\ _add_address db bfpo_num location postcode country bfpo_type box_num s
       = (Ok tt,
          set_addresses
            (fun l => l ++ [address_of bfpo_num location postcode country bfpo_type
                                       box_num code])
            (set_stdout out s)).
Proof.
  intros Hwb. rewrite AddAddress.add_address_run.
  assert (H : exists code out, resolver_answer db country (stdout s) = (Ok code, out)).
  { unfold resolver_answer. destruct country as [c|]; [| eauto].
    destruct (Py.truthy c); [| eauto].
    now apply ResolverFacts.get_country_code_returns. }
  destruct H as (code & out & H). exists code, out. now rewrite H.
Qed.

(** A call for a country that the exact lookup resolves. *)
Lemma add_address_resolved (db : Pycountry) (bfpo_num location : string)
      (postcode : option string) (country code bfpo_type : string)
      (box_num : option string) (s : Scraper) :
  well_behaved db ->
  country <> "" ->
  CountryCodeResolver.SPECIAL_CASES !! country = None ->
  ResolutionOrder.exact_name_lookup db country = Some code ->
  _add_address db bfpo_num location postcode (Some country) bfpo_type box_num s
  = (Ok tt,
     set_addresses
       (fun l => l ++ [address_of bfpo_num location postcode (Some country) bfpo_type
                                  box_num (Some code)]) s).
Proof.
  intros Hwb Hne Hsp Hex. rewrite AddAddress.add_address_run. unfold resolver_answer.
  apply PyFacts.truthy_true in Hne as Ht. rewrite Ht.
  rewrite (get_country_code_exact db country code) by assumption.
  now rewrite set_addresses_stdout_same.
Qed.

(** The rows of the isolated-detachments table, one after the other. *)
Lemma parse_isolated_detachments_run (db : Pycountry) (soup : Soup)
      (rows : list (list string)) (s : Scraper) :
  well_behaved db ->
  ResolutionOrder.exact_name_lookup db "Germany" = Some "DE" ->
  soup IsolatedDetachments = TableRows rows ->
  _parse_isolated_detachments db soup s
  = (Ok tt,
     set_addresses (fun l => l ++ flat_map (detachment_of (Some "DE")) rows) s).
Proof.
  intros Hwb Hde Hsoup. unfold _parse_isolated_detachments, for_rows_of.
  rewrite Hsoup. clear Hsoup. revert s.
  induction rows as [|row rows IH]; intros s.
  - simpl. unfold ret. destruct s. unfold set_addresses. simpl. now rewrite app_nil_r.
  - simpl for_each. unfold bind.
    destruct row as [|location [|box_num rest]].
    + unfold ret. rewrite IH. reflexivity.
    + unfold ret. rewrite IH. reflexivity.
    + rewrite (add_address_resolved db "105" location _ "Germany" "DE")
        by (assumption || discriminate || reflexivity).
      rewrite IH. f_equal. destruct s. unfold set_addresses. simpl.
      now rewrite <- app_assoc.
Qed.

(** The fields of the record of a row with at least two cells. *)
Lemma detachment_of_fields (location box_num : string) (rest : list string) :
  exists address,
    detachment_of (Some "DE") (location :: box_num :: rest) = [address]
    /\ address !! "BfpoNum" = Some "BFPO 105"
    /\ address !! "Loc" = Some location
    /\ address !! "PstCd" = Some "BF1 0AX"
    /\ address !! "Ctry" = Some "Germany"
    /\ address !! "CtryCd" = Some "DE"
    /\ address !! "Type" = Some "detachment"
    /\ address !! "BoxNum" = kept (Some box_num).
Proof.
  eexists. split; [reflexivity |].
  rewrite AddAddress.address_BfpoNum, AddAddress.address_Loc, AddAddress.address_PstCd,
    AddAddress.address_Ctry, AddAddress.address_CtryCd, AddAddress.address_Type,
    AddAddress.address_BoxNum.
  repeat split; reflexivity.
Qed.

End Records.

(** C1.  A number that comes with the prefix in lower case is stored as it
    came: for ["bfpo 15"] the record holds ["bfpo 15"], which does not start
    with ["BFPO "] (while ["15"] is stored as ["BFPO 15"]). *)
Theorem add_address_keeps_lowercase_prefix
        (db : Pycountry) (location : string) (s : Scraper) :
  exists address,
    BFPOScraperSimple._add_address db "bfpo 15" location None None "static" None s
    = (Ok tt, set_addresses (fun l => l ++ [address]) s)
    /\ address !! "BfpoNum" = Some "bfpo 15"
    /\ Py.startswith "bfpo 15" "BFPO " = false
    /\ BFPOScraperSimple.prefixed "15" = "BFPO 15".
Proof.
  exists (address_of "bfpo 15" location None None "static" None None).
  split; [| split; [| split; reflexivity]].
  - rewrite AddAddress.add_address_run. cbn [resolver_answer].
    now rewrite Records.set_addresses_stdout_same.
  - now rewrite AddAddress.address_BfpoNum.
Qed.

(** C6.  A call of [_add_address] returns and appends one record.  The
    record holds [PstCd], [Ctry] and [BoxNum] exactly when the argument was
    given and is not empty, with the argument as value; it holds [CtryCd]
    exactly when it holds [Ctry] and the resolver answered a code that is
    not empty; it always holds [BfpoNum], [Loc] and [Type], and no other
    key; without postcode and country it holds none of [PstCd], [Ctry],
    [CtryCd]. *)
Theorem add_address_optional_fields
        (db : Pycountry) (bfpo_num location : string)
        (postcode country : option string) (bfpo_type : string)
        (box_num : option string) (s : Scraper) :
  well_behaved db ->
  exists address code out,
    resolver_answer db country (stdout s) = (Ok code, out)
    /\ BFPOScraperSimple._add_address db bfpo_num location postcode country bfpo_type
                                     box_num s
       = (Ok tt, set_addresses (fun l => l ++ [address]) (set_stdout out s))
    /\ (forall v, address !! "PstCd" = Some v <-> postcode = Some v /\ v <> "")
    /\ (forall v, address !! "Ctry" = Some v <-> country = Some v /\ v <> "")
    /\ (forall v, address !! "BoxNum" = Some v <-> box_num = Some v /\ v <> "")
    /\ (forall v, address !! "CtryCd" = Some v <->
                  is_Some (address !! "Ctry") /\ code = Some v /\ v <> "")
    /\ address !! "BfpoNum" = Some (BFPOScraperSimple.prefixed bfpo_num)
    /\ address !! "Loc" = Some location
    /\ address !! "Type" = Some bfpo_type
    /\ (forall k, is_Some (address !! k) ->
                  k ∈ ["BfpoNum"; "BoxNum"; "Loc"; "PstCd"; "Ctry"; "CtryCd"; "Type"])
    /\ (postcode = None -> country = None ->
        address !! "PstCd" = None /\ address !! "Ctry" = None
        /\ address !! "CtryCd" = None).
Proof.
  intros Hwb.
  destruct (Records.add_address_returns db bfpo_num location postcode country bfpo_type
              box_num s Hwb) as (code & out & Hans & Hrun).
  exists (address_of bfpo_num location postcode country bfpo_type box_num code),
    code, out.
  split; [exact Hans |]. split; [exact Hrun |].
  split. { intros v. rewrite AddAddress.address_PstCd. apply AddAddress.kept_Some. }
  split. { intros v. rewrite AddAddress.address_Ctry. apply AddAddress.kept_Some. }
  split. { intros v. rewrite AddAddress.address_BoxNum. apply AddAddress.kept_Some. }
  split.
  { intros v. rewrite AddAddress.address_CtryCd, AddAddress.address_Ctry.
    rewrite AddAddress.kept_is_Some.
    destruct (Py.truthy_opt country).
    - rewrite AddAddress.kept_Some. tauto.
    - split; [discriminate | intros [H _]; discriminate H]. }
  split; [apply AddAddress.address_BfpoNum |].
  split; [apply AddAddress.address_Loc |].
  split; [apply AddAddress.address_Type |].
  split; [apply AddAddress.address_keys |].
  intros -> ->.
  rewrite AddAddress.address_PstCd, AddAddress.address_Ctry, AddAddress.address_CtryCd.
  repeat split.
Qed.

Lemma add_address_optional_fields_witness :
  well_behaved Sample.db
  /\ exists address code out,
       resolver_answer Sample.db (Some "Germany") [] = (Ok code, out)
       /\ BFPOScraperSimple._add_address Sample.db "15" "Gutersloh" (Some "")
            (Some "Germany") "static" None init
          = (Ok tt, set_addresses (fun l => l ++ [address]) (set_stdout out init))
       /\ address !! "PstCd" = None
       /\ address !! "Ctry" = Some "Germany"
       /\ address !! "CtryCd" = Some "DE".
Proof.
  split; [exact ResolverFacts.sample_db_well_behaved |].
  destruct (add_address_optional_fields Sample.db "15" "Gutersloh" (Some "")
              (Some "Germany") "static" None init
              ResolverFacts.sample_db_well_behaved)
    as (address & code & out & Hans & Hrun & Hp & Hc & _ & Hcd & _).
  exists address, code, out. split; [exact Hans |]. split; [exact Hrun |].
  injection Hans as <- <-.
  assert (HCtry : address !! "Ctry" = Some "Germany").
  { apply Hc. split; [reflexivity | discriminate]. }
  split; [| split; [exact HCtry |]].
  - destruct (address !! "PstCd") as [v|] eqn:E; [| reflexivity].
    destruct (proj1 (Hp v) eq_refl) as [[= <-] Hv]. now contradiction Hv.
  - apply Hcd. split; [now exists "Germany" |]. split; [reflexivity | discriminate].
Defined.

(* ===================================================================== *)
(** * The parsing paths                                                   *)
(* ===================================================================== *)

(** C8.  The naval-parties row [["Ottawa", "005", "K1N 1A1"]]: the country
    inferred from the location is Canada, and with a catalogue that
    resolves Canada to CA the parser appends exactly the record of the
    specification. *)
Theorem naval_party_ottawa_row (db : Pycountry) (soup : Soup) (s : Scraper) :
  well_behaved db ->
  ResolutionOrder.exact_name_lookup db "Canada" = Some "CA" ->
  soup NavalParties = TableRows [["Ottawa"; "005"; "K1N 1A1"]] ->
  BFPOScraperSimple.naval_party_country "Ottawa" = Some "Canada"
  /\ BFPOScraperSimple._parse_naval_parties db soup s
     = (Ok tt,
        set_addresses
          (fun l => l ++ [list_to_map [("BfpoNum", "BFPO 005"); ("Loc", "Ottawa");
                                       ("PstCd", "K1N 1A1"); ("Ctry", "Canada");
                                       ("CtryCd", "CA"); ("Type", "navalparty")]])
          s).
Proof.
  intros Hwb Hca Hsoup. split; [reflexivity |].
  unfold BFPOScraperSimple._parse_naval_parties, BFPOScraperSimple.for_rows_of.
  rewrite Hsoup. simpl for_each. unfold bind.
  change (BFPOScraperSimple.naval_party_country "Ottawa") with (Some "Canada").
  rewrite (Records.add_address_resolved db "005" "Ottawa" _ "Canada" "CA")
    by (assumption || discriminate || reflexivity).
  reflexivity.
Qed.

Lemma naval_party_ottawa_row_witness :
  well_behaved Sample.db
  /\ ResolutionOrder.exact_name_lookup Sample.db "Canada" = Some "CA"
  /\ Sample.soup NavalParties = TableRows [["Ottawa"; "005"; "K1N 1A1"]]
  /\ BFPOScraperSimple._parse_naval_parties Sample.db Sample.soup init
     = (Ok tt,
        set_addresses
          (fun l => l ++ [list_to_map [("BfpoNum", "BFPO 005"); ("Loc", "Ottawa");
                                       ("PstCd", "K1N 1A1"); ("Ctry", "Canada");
                                       ("CtryCd", "CA"); ("Type", "navalparty")]])
          init).
Proof.
  split; [exact ResolverFacts.sample_db_well_behaved |].
  split; [reflexivity |]. split; [reflexivity |].
  exact (proj2 (naval_party_ottawa_row Sample.db Sample.soup init
                  ResolverFacts.sample_db_well_behaved eq_refl eq_refl)).
Defined.

(** C10, as stated, fails on a row whose box-number cell is empty: the
    record has no [BoxNum]. *)
Lemma detachment_row_with_empty_box_cell :
  let soup : Soup := fun sec =>
    match sec with
    | IsolatedDetachments => TableRows [["Geilenkirchen"; ""]]
    | _ => HeadingNotFound
    end in
  exists address,
    addresses (snd (BFPOScraperSimple._parse_isolated_detachments Sample.db soup
                      init)) = [address]
    /\ address !! "Loc" = Some "Geilenkirchen"
    /\ address !! "BoxNum" <> Some "".
Proof.
  intros soup.
  exists (address_of "105" "Geilenkirchen" (Some "BF1 0AX") (Some "Germany")
                     "detachment" (Some "") (Some "DE")).
  rewrite (Records.parse_isolated_detachments_run Sample.db soup [["Geilenkirchen"; ""]])
    by (exact ResolverFacts.sample_db_well_behaved || reflexivity).
  split; [reflexivity |].
  rewrite AddAddress.address_Loc, AddAddress.address_BoxNum.
  split; [reflexivity | discriminate].
Qed.

(** C10 (amended).  With a catalogue that resolves Germany to DE, every row
    of the isolated-detachments table with at least two cells yields one
    record, in the order of the rows, with [BfpoNum] ["BFPO 105"], [PstCd]
    ["BF1 0AX"], [Ctry] ["Germany"], [CtryCd] ["DE"], the first cell as
    [Loc], and the second cell as [BoxNum] when it is not empty; when it is
    empty the record has no [BoxNum]. *)
Theorem isolated_detachment_rows
        (db : Pycountry) (soup : Soup) (rows : list (list string)) (s : Scraper) :
  well_behaved db ->
  ResolutionOrder.exact_name_lookup db "Germany" = Some "DE" ->
  soup IsolatedDetachments = TableRows rows ->
  BFPOScraperSimple._parse_isolated_detachments db soup s
  = (Ok tt,
     set_addresses (fun l => l ++ flat_map (detachment_of (Some "DE")) rows) s)
  /\ forall location box_num rest,
       exists address,
         detachment_of (Some "DE") (location :: box_num :: rest) = [address]
         /\ address !! "BfpoNum" = Some "BFPO 105"
         /\ address !! "PstCd" = Some "BF1 0AX"
         /\ address !! "Ctry" = Some "Germany"
         /\ address !! "CtryCd" = Some "DE"
         /\ address !! "Loc" = Some location
         /\ address !! "Type" = Some "detachment"
         /\ (box_num <> "" -> address !! "BoxNum" = Some box_num)
         /\ (box_num = "" -> address !! "BoxNum" = None).
Proof.
  intros Hwb Hde Hsoup. split; [now apply Records.parse_isolated_detachments_run |].
  intros location box_num rest.
  destruct (Records.detachment_of_fields location box_num rest)
    as (address & H & Hb & Hl & Hp & Hc & Hcd & Ht & Hx).
  exists address. repeat split; try assumption.
  - intros Hne. rewrite Hx. now apply AddAddress.kept_Some.
  - intros ->. now rewrite Hx.
Qed.

Lemma isolated_detachment_rows_witness :
  well_behaved Sample.db
  /\ ResolutionOrder.exact_name_lookup Sample.db "Germany" = Some "DE"
  /\ Sample.soup IsolatedDetachments
     = TableRows [["Ramstein"; "12"]; ["Geilenkirchen"; ""]]
  /\ BFPOScraperSimple._parse_isolated_detachments Sample.db Sample.soup init
     = (Ok tt,
        set_addresses
          (fun l => l ++ flat_map (detachment_of (Some "DE"))
                                  [["Ramstein"; "12"]; ["Geilenkirchen"; ""]])
          init).
Proof.
  split; [exact ResolverFacts.sample_db_well_behaved |].
  split; [reflexivity |]. split; [reflexivity |].
  exact (proj1 (isolated_detachment_rows Sample.db Sample.soup _ init
                  ResolverFacts.sample_db_well_behaved eq_refl eq_refl)).
Defined.

Module Produced.

Import BFPOScraperSimple.


(** [generate_xml] sorts the list and changes nothing else in it. *)
Lemma preserves_generate_xml (Q : Address -> Prop) (today : nat * nat * nat) :
  preserves Q (generate_xml today).
Proof.
  intros s H. unfold generate_xml, _write_pretty_xml. unfold_monad.
  destruct (sort_by get_sort_key (addresses s)) as [sorted|e] eqn:E; [| exact H].
  apply SortFacts.sort_by_perm in E.
  assert (Hs : Forall Q sorted) by (eapply Permutation_Forall; [symmetry |]; eassumption).
  destruct (address_elements sorted); [| exact Hs].
  destruct (Xml.parseString _); [| exact Hs].
  destruct (Xml.toprettyxml _); exact Hs.
Qed.

Lemma preserves_run (db : Pycountry) (env : Environment)
      (fcdo_ods_file : option string) :
  preserves produced (run db env fcdo_ods_file).
Proof.
  unfold run. apply Invariants.preserves_bind;
    [apply Invariants.preserves_collect | intros _; apply preserves_generate_xml].
Qed.

End Produced.




(* ===================================================================== *)
(** * Which failures end the run                                          *)
(* ===================================================================== *)

Module RunFacts.

Import BFPOScraperSimple.

Lemma returns_ret {A} (a : A) : returns (ret a).
Proof. intros s. now exists a. Qed.

Lemma returns_bind {A B} (m : M Scraper A) (k : A -> M Scraper B) :
  returns m -> (forall a, returns (k a)) -> returns (mbind k m).
Proof.
  intros Hm Hk s. unfold mbind, M_bind, bind. destruct (Hm s) as [a Ha].
  destruct (m s) as [r s1]. simpl in Ha. subst r. apply Hk.
Qed.

Lemma returns_for_each {A} (xs : list A) (body : A -> M Scraper unit) :
  (forall x, returns (body x)) -> returns (for_each xs body).
Proof.
  intros Hb. induction xs as [|x xs IH]; simpl; [apply returns_ret |].
  apply (returns_bind (body x) (fun _ => for_each xs body)); auto.
Qed.

Lemma returns_printing (m : message) : returns (printing (print m)).
Proof. intros s. now exists tt. Qed.

Lemma caught_by_Exception (e : exn) : caught_by [Exception] e = true.
Proof. reflexivity. Qed.

(** A [try] with [except Exception] returns when its handler does. *)
Lemma returns_try_except_Exception {A} (body : M Scraper A)
      (handler : exn -> M Scraper A) :
  (forall e, returns (handler e)) -> returns (try_except body [Exception] handler).
Proof.
  intros Hh s. unfold try_except. destruct (body s) as [[a|e] s1].
  - now exists a.
  - rewrite caught_by_Exception. apply Hh.
Qed.


Lemma returns_for_rows_of (soup : Soup) (sec : section) (title : string)
      (body : list string -> M Scraper unit) :
  (forall row, returns (body row)) -> returns (for_rows_of soup sec title body).
Proof.
  intros Hb. unfold for_rows_of. destruct (soup sec).
  - apply returns_printing.
  - apply returns_ret.
  - now apply returns_for_each.
Qed.

Section WithDatabase.

Variable db : Pycountry.
Hypothesis db_well_behaved : well_behaved db.

Lemma returns_add_address (bfpo_num location : string)
      (postcode country : option string) (bfpo_type : string)
      (box_num : option string) :
  returns (_add_address db bfpo_num location postcode country bfpo_type box_num).
Proof.
  intros s.
  destruct (Records.add_address_returns db bfpo_num location postcode country bfpo_type
              box_num s db_well_behaved) as (code & out & _ & H).
  exists tt. now rewrite H.
Qed.

Ltac section_parser :=
  intros soup; apply returns_for_rows_of; intros row;
  destruct row as [|row0 [|row1 [|row2 [|row3 rest]]]];
  try apply returns_ret;
  apply returns_add_address.












Lemma returns_parse_fcdo_cells (row : gmap string string)
      (group : string * string * string) :
  returns (parse_fcdo_cells db row group).
Proof.
  destruct group as [[loc_col bfpo_col] post_col]. unfold parse_fcdo_cells.
  apply returns_try_except_Exception. intros e. apply returns_ret.
Qed.





End WithDatabase.

End RunFacts.




(* ===================================================================== *)
(** * The escapes and the scanner                                         *)
(* ===================================================================== *)

Module XmlLex.

Import Xml XmlShape.

(** All the characters. *)
Ltac each_char c := destruct c as [[] [] [] [] [] [] [] []].

(** ** [str.replace] of one character, and the escapes *)







(** ** The scanner *)

Lemma scan_app (st : mode * list token) (a b : string) :
  scan st (a +:+ b)
  = match scan st a with
    | Some st' => scan st' b
    | None => None
    end.
Proof.
  revert st. induction a as [|c a IH]; intros st; [reflexivity |].
  rewrite PyFacts.append_cons. simpl. destruct (step st c); [apply IH | reflexivity].
Qed.

Lemma snoc_append (text : string) (c : ascii) (rest : string) :
  snoc text c +:+ rest = text +:+ String c rest.
Proof. unfold snoc. now rewrite PyFacts.append_assoc. Qed.






(** The characters of a name keep the scanner in the name. *)
Lemma step_open_name (c : ascii) (name : string) (toks : list token) :
  is_name_char c = true ->
  step (OpenName name, toks) c = Some (OpenName (snoc name c), toks).
Proof. intros H. each_char c; try discriminate H; reflexivity. Qed.


Lemma scan_open_name (s name : string) (toks : list token) :
  Py.all_chars is_name_char s = true ->
  scan (OpenName name, toks) s = Some (OpenName (name +:+ s), toks).
Proof.
  revert name. induction s as [|c s IH]; intros name H.
  - simpl. now rewrite PyFacts.append_empty_r.
  - simpl in H. apply andb_true_iff in H as [Hc Hs].
    cbn [scan]. rewrite step_open_name by assumption.
    rewrite IH by assumption. now rewrite snoc_append.
Qed.


Lemma step_markup_name_start (c : ascii) (toks : list token) :
  is_name_start c = true ->
  step (Markup, toks) c = Some (OpenName (String c EmptyString), toks).
Proof. intros H. each_char c; try discriminate H; reflexivity. Qed.


Lemma step_content_lt (text : string) (toks : list token) :
  step (Content text, toks) "<" = Some (Markup, toks ++ flush text).
Proof. reflexivity. Qed.


(** From [<] to the end of the name of an opening tag. *)
Lemma scan_tag_name (tag text rest : string) (toks : list token) :
  valid_name tag = true ->
  scan (Content text, toks) ("<" +:+ tag +:+ rest)
  = scan (OpenName tag, toks ++ flush text) rest.
Proof.
  destruct tag as [|c s]; [discriminate |]. intros H.
  apply andb_true_iff in H as [Hc Hs].
  change ("<" +:+ String c s +:+ rest) with (String "<" (String c (s +:+ rest))).
  cbn [scan]. rewrite step_content_lt. cbv beta iota.
  rewrite step_markup_name_start by assumption. cbv beta iota.
  rewrite scan_app, scan_open_name by assumption. reflexivity.
Qed.

(** [<tag>] *)
Lemma scan_open_tag (tag text : string) (toks : list token) :
  valid_name tag = true ->
  scan (Content text, toks) ("<" +:+ tag +:+ ">")
  = Some (Content EmptyString, (toks ++ flush text) ++ [TOpen tag]).
Proof. intros H. now rewrite scan_tag_name. Qed.

(** [<tag />], as [ElementTree] writes an element without content *)
Lemma scan_empty_tag_et (tag text : string) (toks : list token) :
  valid_name tag = true ->
  scan (Content text, toks) ("<" +:+ tag +:+ " />")
  = Some (Content EmptyString, (toks ++ flush text) ++ [TEmpty tag]).
Proof. intros H. now rewrite scan_tag_name. Qed.

(** [<tag/>], as [minidom] writes it *)
Lemma scan_empty_tag_dom (tag text : string) (toks : list token) :
  valid_name tag = true ->
  scan (Content text, toks) ("<" +:+ tag +:+ "/>")
  = Some (Content EmptyString, (toks ++ flush text) ++ [TEmpty tag]).
Proof. intros H. now rewrite scan_tag_name. Qed.


(** ** Comments *)








(** ** Raw text and line ends *)










End XmlLex.

(* ===================================================================== *)
(** * The document of [generate_xml], written and read                    *)
(* ===================================================================== *)

Module XmlDoc.

Import Xml XmlShape XmlLex BFPOScraperSimple.

(** ** The pieces of a document, each followed by the rest *)









(** ** The comment at the head of the document *)
















(** ** What [ET.tostring] writes *)















End XmlDoc.

(* ===================================================================== *)
(** * The parsed documents                                                *)
(* ===================================================================== *)

Module XmlBuild.

Import Xml XmlShape XmlLex XmlDoc BFPOScraperSimple.


Section InAnElement.

(** The innermost open element, the elements around it and the children of
    the document. *)
Variables (tag0 : string) (stack : frames) (top : list Node).




End InAnElement.








End XmlBuild.

(* ===================================================================== *)
(** * What [toprettyxml] writes                                           *)
(* ===================================================================== *)

Module XmlPretty.

Import Xml XmlShape XmlLex XmlDoc XmlBuild BFPOScraperSimple.



















End XmlPretty.

(* ===================================================================== *)
(** * Writing the document and reading it back                            *)
(* ===================================================================== *)

Module RoundTripFacts.

Import Xml XmlShape XmlLex XmlDoc XmlBuild XmlPretty BFPOScraperSimple ReadBack.

(** ** Reading the pretty-printed document *)








(** ** The fields of an address *)








(** The element [generate_xml] builds for an address that has the required
    fields. *)
Lemma address_element_fields (addr : Address) :
  is_Some (addr !! "BfpoNum") -> is_Some (addr !! "Loc") -> is_Some (addr !! "Type") ->
  address_element addr = Ok (element_of_fields (fields_of addr)).
Proof.
  intros [b Hb] [l Hl] [t Ht].
  unfold address_element, getitem, element_of_fields, fields_of, optional_element.
  rewrite Hb, Hl, Ht. rewrite !map_app.
  destruct (addr !! "BoxNum"), (addr !! "PstCd"), (addr !! "Ctry"),
    (addr !! "CtryCd") as [[|? ?]|]; reflexivity.
Qed.



(** ** [generate_xml] *)


End RoundTripFacts.




(* ===================================================================== *)
(** * Further properties of the program                                   *)
(* ===================================================================== *)

(** X1.  The number [_add_address] stores is never empty, put in upper
    case it starts with [BFPO], and storing a stored number again changes
    nothing. *)
Theorem stored_number_is_normal (bfpo_num : string) :
  BFPOScraperSimple.prefixed bfpo_num <> ""
  /\ Py.startswith (Py.upper (BFPOScraperSimple.prefixed bfpo_num)) "BFPO" = true
  /\ BFPOScraperSimple.prefixed (BFPOScraperSimple.prefixed bfpo_num)
     = BFPOScraperSimple.prefixed bfpo_num.
Proof.
  split; [apply Prefix.prefixed_nonempty |].
  split; [apply Prefix.prefixed_upper_startswith | apply Prefix.prefixed_idempotent].
Qed.



(** X3.  [validate_country_code] answers [False] for every string that
    does not have exactly two characters, and [True] for every value of the
    override table, without a look at what the library says. *)
Theorem validate_country_code_without_library
        (db : Pycountry) (code : string) (out : Stdout) :
  (String.length code <> 2 ->
   CountryCodeResolver.validate_country_code db code out = (Ok false, out))
  /\ (code ∈ CountryCodeResolver.SPECIAL_CASES_values ->
      CountryCodeResolver.validate_country_code db code out = (Ok true, out)).
Proof.
  rewrite ResolverFacts.validate_country_code_run. split.
  - intros H. destruct code as [|a [|b [|c s]]]; try reflexivity. now contradiction H.
  - intros H. rewrite (bool_decide_eq_true_2 _ H).
    unfold CountryCodeResolver.SPECIAL_CASES_values in H. simpl in H.
    rewrite !elem_of_cons in H. rewrite elem_of_nil in H.
    repeat (destruct H as [-> | H]; [reflexivity |]). destruct H.
Qed.

Lemma validate_country_code_without_library_witness :
  String.length "DEU" <> 2
  /\ ("AC" ∈ CountryCodeResolver.SPECIAL_CASES_values)
  /\ CountryCodeResolver.validate_country_code Sample.db_raising "DEU" [] = (Ok false, [])
  /\ CountryCodeResolver.validate_country_code Sample.db_raising "AC" [] = (Ok true, []).
Proof.
  assert (H1 : String.length "DEU" <> 2) by discriminate.
  assert (H2 : "AC" ∈ CountryCodeResolver.SPECIAL_CASES_values)
    by (unfold CountryCodeResolver.SPECIAL_CASES_values; simpl;
        rewrite !elem_of_cons; tauto).
  split; [exact H1 |]. split; [exact H2 |]. split.
  - exact (proj1 (validate_country_code_without_library Sample.db_raising "DEU" []) H1).
  - exact (proj2 (validate_country_code_without_library Sample.db_raising "AC" []) H2).
Defined.

(** X4.  A name of the override table is answered with the code of the
    table whatever the library does, even a library that raises on every
    call; the codes of the table have two characters. *)
Theorem override_names_bypass_library
        (db : Pycountry) (country_name code : string) (out : Stdout) :
  (country_name, code) ∈ CountryCodeResolver.SPECIAL_CASES_items ->
  CountryCodeResolver.get_country_code db country_name out = (Ok (Some code), out)
  /\ String.length code = 2.
Proof.
  intros H. unfold CountryCodeResolver.SPECIAL_CASES_items in H.
  rewrite !elem_of_cons in H. rewrite elem_of_nil in H.
  repeat (destruct H as [[= -> ->] | H];
          [split; [now apply ResolverFacts.get_country_code_override | reflexivity] |]).
  destruct H.
Qed.

Lemma override_names_bypass_library_witness :
  let db := {| countries_get := fun _ _ => Raise Exception;
               countries_search_fuzzy := fun _ => Raise Exception |} in
  ("Falklands", "FK") ∈ CountryCodeResolver.SPECIAL_CASES_items
  /\ CountryCodeResolver.get_country_code db "Falklands" [] = (Ok (Some "FK"), []).
Proof.
  intros db.
  assert (H : ("Falklands", "FK") ∈ CountryCodeResolver.SPECIAL_CASES_items)
    by (unfold CountryCodeResolver.SPECIAL_CASES_items; rewrite !elem_of_cons; tauto).
  split; [exact H |].
  exact (proj1 (override_names_bypass_library db "Falklands" "FK" [] H)).
Defined.

(** X5.  An exception of the exact lookup that the method does not catch
    (neither [KeyError] nor [AttributeError]) escapes [get_country_code]
    for every name that is not empty and not in the override table; nothing
    is printed. *)
Theorem get_country_code_lets_other_exceptions_out
        (db : Pycountry) (country_name : string) (e : exn) (out : Stdout) :
  country_name <> "" ->
  CountryCodeResolver.SPECIAL_CASES !! country_name = None ->
  countries_get db by_name country_name = Raise e ->
  caught_by [KeyError; AttributeError] e = false ->
  CountryCodeResolver.get_country_code db country_name out = (Raise e, out).
Proof.
  intros Hne Hsp Hget Hc. unfold CountryCodeResolver.get_country_code.
  apply PyFacts.truthy_true in Hne. rewrite Hne, Hsp. cbn [negb].
  unfold CountryCodeResolver.try_get. unfold_monad. now rewrite Hget, Hc.
Qed.

Lemma get_country_code_lets_other_exceptions_out_witness :
  let db := {| countries_get := fun _ _ => Raise ValueError;
               countries_search_fuzzy := fun _ => Raise LookupError |} in
  "Germany" <> ""
  /\ CountryCodeResolver.get_country_code db "Germany" [] = (Raise ValueError, []).
Proof.
  intros db. assert (H : "Germany" <> "") by discriminate.
  split; [exact H |].
  exact (get_country_code_lets_other_exceptions_out db "Germany" ValueError [] H
           eq_refl eq_refl eq_refl).
Defined.

Module ElementFacts.

Import XmlShape BFPOScraperSimple.

Lemma elem_of_field (addr : Address) (key k v : string) :
  (k, v) ∈ match addr !! key with Some x => [(key, x)] | None => [] end
  <-> k = key /\ addr !! key = Some v.
Proof.
  destruct (addr !! key) as [x|].
  - rewrite list_elem_of_singleton. split; [intros [= -> ->] | intros [-> [= ->]]]; auto.
  - rewrite elem_of_nil. split; [tauto | intros [_ H]; discriminate H].
Qed.

Lemma elem_of_fields_of (addr : Address) (k v : string) :
  (k, v) ∈ fields_of addr
  <-> k ∈ ReadBack.written_keys /\ addr !! k = Some v /\ (k = "CtryCd" -> v <> "").
Proof.
  unfold fields_of, ReadBack.written_keys.
  rewrite !elem_of_app, !elem_of_field, !elem_of_cons, elem_of_nil.
  assert (Hcd : (k, v) ∈ match addr !! "CtryCd" with
                         | Some x => if Py.truthy x then [("CtryCd", x)] else []
                         | None => []
                         end
                <-> k = "CtryCd" /\ addr !! "CtryCd" = Some v /\ v <> "").
  { destruct (addr !! "CtryCd") as [[|c s]|]; simpl.
    - rewrite elem_of_nil. split; [tauto | intros (_ & [= <-] & H); now apply H].
    - rewrite list_elem_of_singleton. split.
      + intros [= -> ->]. repeat split. discriminate.
      + now intros (-> & [= ->] & _).
    - rewrite elem_of_nil. split; [tauto | intros (_ & H & _); discriminate H]. }
  rewrite Hcd. split.
  - intros [[-> H] | [[-> H] | [[-> H] | [[-> H] | [[-> H] | [(-> & H & Hv) | [-> H]]]]]]];
      (split; [tauto |]); (split; [exact H |]); try discriminate; try (now intros _).
  - intros ([-> | [-> | [-> | [-> | [-> | [-> | [-> | []]]]]]]] & H & Hv); tauto.
Qed.

Lemma fields_of_in_order (addr : Address) :
  sublist (map fst (fields_of addr)) ReadBack.written_keys.
Proof.
  unfold fields_of, ReadBack.written_keys.
  destruct (addr !! "BfpoNum"), (addr !! "BoxNum"), (addr !! "Loc"), (addr !! "PstCd"),
    (addr !! "Ctry"), (addr !! "CtryCd") as [[|? ?]|], (addr !! "Type");
    simpl;
    repeat first [apply sublist_nil_l | apply sublist_skip | apply sublist_cons].
Qed.

Lemma address_element_missing_key (addr : Address) :
  addr !! "BfpoNum" = None \/ addr !! "Loc" = None \/ addr !! "Type" = None ->
  address_element addr = Raise KeyError.
Proof.
  unfold address_element, getitem.
  intros [H | [H | H]]; rewrite H;
    destruct (addr !! "BfpoNum"), (addr !! "Loc"), (addr !! "Type");
    try reflexivity; discriminate.
Qed.

End ElementFacts.

(** X6.  The element [generate_xml] builds for an address that has the
    three required fields: a [BFFO_Address] element without text whose
    children are text-only elements, one for each key of the address among
    [BfpoNum], [BoxNum], [Loc], [PstCd], [Ctry], [CtryCd], [Type] (a
    [CtryCd] only when it is not empty), in that order, each with the value
    of the key as text.  An address without one of the required fields
    makes it raise [KeyError]. *)
Theorem address_element_layout (addr : Address) :
  (is_Some (addr !! "BfpoNum") -> is_Some (addr !! "Loc") -> is_Some (addr !! "Type") ->
   BFPOScraperSimple.address_element addr
   = Ok (Xml.Elem "BFFO_Address" None
           (map (fun f => Xml.Elem (fst f) (Some (snd f)) [])
                (XmlShape.fields_of addr))))
  /\ sublist (map fst (XmlShape.fields_of addr))
             ["BfpoNum"; "BoxNum"; "Loc"; "PstCd"; "Ctry"; "CtryCd"; "Type"]
  /\ (forall k v,
        (k, v) ∈ XmlShape.fields_of addr
        <-> k ∈ ["BfpoNum"; "BoxNum"; "Loc"; "PstCd"; "Ctry"; "CtryCd"; "Type"]
            /\ addr !! k = Some v /\ (k = "CtryCd" -> v <> ""))
  /\ (addr !! "BfpoNum" = None \/ addr !! "Loc" = None \/ addr !! "Type" = None ->
      BFPOScraperSimple.address_element addr = Raise KeyError).
Proof.
  split; [| split; [| split]].
  - intros Hb Hl Ht. now rewrite RoundTripFacts.address_element_fields.
  - apply ElementFacts.fields_of_in_order.
  - apply ElementFacts.elem_of_fields_of.
  - apply ElementFacts.address_element_missing_key.
Qed.

Lemma address_element_layout_witness :
  let addr := address_of "105" "Ramstein" (Some "BF1 0AX") (Some "Germany") "detachment"
                         (Some "12") (Some "DE") in
  is_Some (addr !! "BfpoNum") /\ is_Some (addr !! "Loc") /\ is_Some (addr !! "Type")
  /\ BFPOScraperSimple.address_element addr
     = Ok (Xml.Elem "BFFO_Address" None
             (map (fun f => Xml.Elem (fst f) (Some (snd f)) [])
                  (XmlShape.fields_of addr))).
Proof.
  intros addr.
  assert (Hb : is_Some (addr !! "BfpoNum"))
    by (unfold addr; rewrite AddAddress.address_BfpoNum; eauto).
  assert (Hl : is_Some (addr !! "Loc"))
    by (unfold addr; rewrite AddAddress.address_Loc; eauto).
  assert (Ht : is_Some (addr !! "Type"))
    by (unfold addr; rewrite AddAddress.address_Type; eauto).
  split; [exact Hb |]. split; [exact Hl |]. split; [exact Ht |].
  exact (proj1 (address_element_layout addr) Hb Hl Ht).
Defined.

Module ProducedFacts.

Import BFPOScraperSimple.

(** A record of a parsing path has the three required fields; it has a
    code only when it has a country, and its type is one of the seven. *)
Lemma produced_fields (address : Address) :
  produced address ->
  is_Some (address !! "BfpoNum") /\ is_Some (address !! "Loc")
  /\ is_Some (address !! "Type")
  /\ (is_Some (address !! "CtryCd") -> is_Some (address !! "Ctry")).
Proof.
  intros [location box_num code | bfpo_num location postcode country bfpo_type code Ht];
    rewrite AddAddress.address_BfpoNum, AddAddress.address_Loc, AddAddress.address_Type,
      AddAddress.address_CtryCd, AddAddress.address_Ctry;
    (repeat split; eauto);
    rewrite AddAddress.kept_is_Some;
    match goal with |- context [Py.truthy_opt ?c] => destruct (Py.truthy_opt c) end;
    try reflexivity; intros [v Hv]; discriminate Hv.
Qed.


(** Counting with a weaker and a stronger test. *)
Lemma count_filters (p q : Address -> bool) (l : list Address) :
  Forall (fun a => p a = true -> q a = true) l ->
  length (List.filter p l) <= length (List.filter q l)
  /\ length (List.filter q l) - length (List.filter p l)
     = length (List.filter (fun a => q a && negb (p a)) l).
Proof.
  induction 1 as [|a l Ha Hl [IH1 IH2]]; [split; reflexivity |].
  simpl. destruct (p a) eqn:Ep.
  - rewrite (Ha eq_refl). simpl. split; lia.
  - destruct (q a); simpl; split; lia.
Qed.

Lemma has_key_is_Some (key : string) (a : Address) :
  has_key key a = true <-> is_Some (a !! key).
Proof.
  unfold has_key. destruct (a !! key); split; eauto; try discriminate.
  intros [v Hv]. discriminate Hv.
Qed.

End ProducedFacts.


(** X8.  The statistics [_print_country_stats] prints about the records of
    a run: never more records with a code than with a country; when the
    count of unmapped countries is printed it is positive and is the number
    of records with a country and without a code, and the set of their
    names is not empty; when it is not printed every record with a country
    has a code. *)
Theorem country_stats_are_consistent
        (db : Pycountry) (env : Environment) (fcdo_ods_file : option string) :
  let l := addresses (snd (BFPOScraperSimple.run db env fcdo_ods_file init)) in
  let stats := BFPOScraperSimple._print_country_stats l in
  BFPOScraperSimple.total_with_code stats <= BFPOScraperSimple.total_with_country stats
  /\ (forall n, BFPOScraperSimple.unmapped stats = Some n ->
                0 < n /\ n = length (List.filter is_unmapped l)
                /\ BFPOScraperSimple.unmapped_countries stats <> ∅)
  /\ (BFPOScraperSimple.unmapped stats = None ->
      Forall (fun a => is_Some (a !! "Ctry") -> is_Some (a !! "CtryCd")) l).
Proof.
  intros l stats.
  assert (Hl : Forall (fun a => BFPOScraperSimple.has_key "CtryCd" a = true ->
                                BFPOScraperSimple.has_key "Ctry" a = true) l).
  { eapply Forall_impl; [apply Produced.preserves_run; constructor |].
    intros a Ha. rewrite !ProducedFacts.has_key_is_Some.
    now destruct (ProducedFacts.produced_fields a Ha) as (_ & _ & _ & H). }
  destruct (ProducedFacts.count_filters _ _ l Hl) as [Hle Hdiff].
  fold is_unmapped in Hdiff.
  subst stats. unfold BFPOScraperSimple._print_country_stats.
  destruct (length (List.filter (BFPOScraperSimple.has_key "CtryCd") l)
            <? length (List.filter (BFPOScraperSimple.has_key "Ctry") l))%nat eqn:E;
    cbn [BFPOScraperSimple.total_with_code BFPOScraperSimple.total_with_country BFPOScraperSimple.unmapped BFPOScraperSimple.unmapped_countries].
  - apply Nat.ltb_lt in E. split; [exact Hle |]. split; [| discriminate].
    intros n [= <-]. split; [lia |]. split; [exact Hdiff |].
    assert (Hpos : 0 < length (List.filter is_unmapped l)) by lia.
    destruct (List.filter is_unmapped l) as [|a rest] eqn:Ef; [simpl in Hpos; lia |].
    assert (Ha : In a (List.filter is_unmapped l)) by (rewrite Ef; now left).
    apply filter_In in Ha as [Hin Hu].
    intros Hempty.
    assert (Hx : default EmptyString (a !! "Ctry")
                 ∈ (list_to_set
                      (flat_map (fun addr =>
                                   if BFPOScraperSimple.has_key "Ctry" addr
                                      && negb (BFPOScraperSimple.has_key "CtryCd" addr)
                                   then [default EmptyString (addr !! "Ctry")] else [])
                                l) : gset string)).
    { apply elem_of_list_to_set, list_elem_of_In, in_flat_map.
      exists a. split; [exact Hin |]. unfold is_unmapped in Hu. rewrite Hu. now left. }
    rewrite Hempty in Hx. now apply not_elem_of_empty in Hx.
  - apply Nat.ltb_ge in E. split; [exact Hle |]. split; [discriminate |]. intros _.
    assert (Hnone : List.filter is_unmapped l = []).
    { apply length_zero_iff_nil. lia. }
    apply Forall_forall. intros a Ha Hc.
    apply ProducedFacts.has_key_is_Some.
    destruct (BFPOScraperSimple.has_key "CtryCd" a) eqn:Hcd; [reflexivity |].
    assert (Hin : In a (List.filter is_unmapped l)).
    { apply filter_In. split; [now apply list_elem_of_In |].
      unfold is_unmapped. rewrite Hcd.
      apply ProducedFacts.has_key_is_Some in Hc. now rewrite Hc. }
    rewrite Hnone in Hin. destruct Hin.
Qed.

Lemma country_stats_are_consistent_witness :
  let l := addresses (snd (BFPOScraperSimple.run Sample.db Sample.env None init)) in
  BFPOScraperSimple.unmapped (BFPOScraperSimple._print_country_stats l) = None
  /\ Forall (fun a => is_Some (a !! "Ctry") -> is_Some (a !! "CtryCd")) l.
Proof.
  intros l.
  assert (H : BFPOScraperSimple.unmapped (BFPOScraperSimple._print_country_stats l) = None)
    by (vm_compute; reflexivity).
  split; [exact H |].
  exact (proj2 (proj2 (country_stats_are_consistent Sample.db Sample.env None)) H).
Defined.

(* ===================================================================== *)
(** * The spreadsheet: countries of locations, column groups, records     *)
(* ===================================================================== *)

Module InferFacts.

Import BFPOScraperSimple.





(** The first entry of a table whose pattern occurs in a string. *)
Lemma find_first {A} (p : A -> bool) (l : list A) :
  match List.find p l with
  | Some x => exists before after,
                l = before ++ x :: after /\ p x = true
                /\ Forall (fun y => p y = false) before
  | None => Forall (fun y => p y = false) l
  end.
Proof.
  induction l as [|a l IH]; simpl; [constructor |].
  destruct (p a) eqn:E.
  - exists [], l. repeat split; auto.
  - destruct (List.find p l) as [x|].
    + destruct IH as (before & after & -> & Hx & Hb).
      exists (a :: before), after. repeat split; auto.
    + constructor; assumption.
Qed.

End InferFacts.



Module GroupFacts.

Import BFPOScraperSimple.

Lemma to_uint_nonnil (n : nat) : Nat.to_uint n <> Decimal.Nil.
Proof.
  intros H. pose proof (DecimalNat.Unsigned.of_to n) as Hn.
  rewrite H in Hn. simpl in Hn. subst n. discriminate H.
Qed.

(** [str] gives different strings for different numbers. *)
Lemma str_of_nat_inj (i j : nat) : Py.str_of_nat i = Py.str_of_nat j -> i = j.
Proof.
  unfold Py.str_of_nat. intros H.
  apply (f_equal NilZero.uint_of_string) in H.
  rewrite !NilZero.usu in H by apply to_uint_nonnil.
  injection H as H. now apply DecimalNat.Unsigned.to_uint_inj.
Qed.

Lemma append_inj (p a b : string) : p +:+ a = p +:+ b -> a = b.
Proof.
  induction p as [|c p IH]; [now rewrite !PyFacts.append_nil |].
  rewrite !PyFacts.append_cons. intros [= H]. now apply IH.
Qed.

Lemma has_group_location (cols : list string) (i : nat) :
  has_group cols (numbered_group i) = true ->
  "Location." +:+ Py.str_of_nat i ∈ cols.
Proof.
  unfold has_group, numbered_group. intros H.
  apply andb_prop in H as [H _]. apply andb_prop in H as [H _].
  now apply bool_decide_eq_true in H.
Qed.

(** Pigeonhole: the groups of [n] successive numbers cannot all be among
    fewer than [n] columns. *)
Lemma groups_bounded (cols : list string) (i n : nat) :
  (forall j, i <= j < i + n -> has_group cols (numbered_group j) = true) ->
  n <= length cols.
Proof.
  intros H.
  set (names := map (fun j => "Location." +:+ Py.str_of_nat j) (seq i n)).
  assert (Hlen : length names = n) by (unfold names; now rewrite length_map, length_seq).
  rewrite <- Hlen. apply submseteq_length, NoDup_submseteq.
  - unfold names. apply (NoDup_fmap_2_strong _); [| apply NoDup_seq].
    intros a b _ _ Hab. apply append_inj in Hab. now apply str_of_nat_inj.
  - intros x Hx. unfold names in Hx. apply list_elem_of_In, in_map_iff in Hx as (j & <- & Hj).
    apply in_seq in Hj. apply has_group_location, H. lia.
Qed.

(** The loop from [i] on, with [fuel] iterations allowed. *)
Lemma numbered_groups_run (cols : list string) (fuel i : nat) :
  match numbered_groups fuel cols i with
  | Some groups =>
      exists k, k < fuel /\ groups = numbered_from i k
                /\ has_group cols (numbered_group (i + k)) = false
                /\ forall j, i <= j < i + k -> has_group cols (numbered_group j) = true
  | None => forall j, i <= j < i + fuel -> has_group cols (numbered_group j) = true
  end.
Proof.
  revert i. induction fuel as [|fuel IH]; intros i; cbn [numbered_groups].
  - intros j Hj. lia.
  - destruct (has_group cols (numbered_group i)) eqn:E.
    + specialize (IH (S i)).
      destruct (numbered_groups fuel cols (S i)) as [groups|]; cbn [option_map].
      * destruct IH as (k & Hk & -> & Hstop & Hall).
        exists (S k). split; [lia |]. split; [reflexivity |].
        split; [now replace (i + S k) with (S i + k) by lia |].
        intros j Hj. destruct (Nat.eq_dec j i) as [-> | Hne]; [exact E |].
        apply Hall. lia.
      * intros j Hj. destruct (Nat.eq_dec j i) as [-> | Hne]; [exact E |].
        apply IH. lia.
    + exists 0. split; [lia |]. split; [reflexivity |].
      split; [now rewrite Nat.add_0_r |]. intros j Hj. lia.
Qed.

End GroupFacts.

(** X10.  The [while True] loop of [parse_fcdo_ods] over the numbered
    column groups stops: with any columns, it breaks within as many
    iterations as there are columns, plus one.  It finds the groups
    numbered 1 to [k] for the first [k + 1] that is not complete, and
    nothing after a gap.  More iterations allowed change nothing. *)
Theorem numbered_groups_terminates (cols : list string) :
  exists k,
    k <= length cols
    /\ (forall fuel, length cols < fuel ->
          BFPOScraperSimple.numbered_groups fuel cols 1 = Some (numbered_from 1 k))
    /\ BFPOScraperSimple.has_group cols (BFPOScraperSimple.numbered_group (S k)) = false
    /\ (forall j, 1 <= j <= k ->
          BFPOScraperSimple.has_group cols (BFPOScraperSimple.numbered_group j) = true)
    /\ BFPOScraperSimple.column_groups cols
       = (if BFPOScraperSimple.has_group cols ("Location", "BFPO No", "Postcode")
          then [("Location", "BFPO No", "Postcode")] else [])
         ++ numbered_from 1 k.
Proof.
  assert (Hrun : forall fuel, length cols < fuel ->
            exists k, k <= length cols
              /\ BFPOScraperSimple.numbered_groups fuel cols 1 = Some (numbered_from 1 k)
              /\ BFPOScraperSimple.has_group cols (BFPOScraperSimple.numbered_group (S k))
                 = false
              /\ forall j, 1 <= j <= k ->
                   BFPOScraperSimple.has_group cols (BFPOScraperSimple.numbered_group j)
                   = true).
  { intros fuel Hf. pose proof (GroupFacts.numbered_groups_run cols fuel 1) as H.
    destruct (BFPOScraperSimple.numbered_groups fuel cols 1) as [groups|].
    - destruct H as (k & Hk & -> & Hstop & Hall). exists k.
      split; [apply (GroupFacts.groups_bounded cols 1 k); intros j Hj; apply Hall; lia |].
      split; [reflexivity |]. split; [exact Hstop |]. intros j Hj. apply Hall. lia.
    - apply GroupFacts.groups_bounded in H. lia. }
  destruct (Hrun (S (length cols)) (Nat.lt_succ_diag_r _)) as (k & Hk & Hsome & Hstop & Hall).
  exists k. split; [exact Hk |]. split; [| split; [exact Hstop | split; [exact Hall |]]].
  - intros fuel Hf. destruct (Hrun fuel Hf) as (k' & _ & Hsome' & Hstop' & Hall').
    rewrite Hsome'. f_equal. f_equal.
    destruct (Nat.lt_trichotomy k k') as [Hlt | [-> | Hgt]]; [| reflexivity |].
    + rewrite Hall' in Hstop by lia. discriminate.
    + rewrite Hall in Hstop' by lia. discriminate.
  - unfold BFPOScraperSimple.column_groups. now rewrite Hsome.
Qed.

Module AppendFacts.

Import BFPOScraperSimple.

Section AppendsOnly.

Variable Q : Address -> Prop.

Lemma unchanged {A} (m : M Scraper A) :
  (forall s, addresses (snd (m s)) = addresses s) -> appends_only Q m.
Proof. intros H s. exists []. rewrite H, app_nil_r. split; [reflexivity | constructor]. Qed.

Lemma appends_only_ret {A} (a : A) : appends_only Q (ret a).
Proof. now apply unchanged. Qed.

Lemma appends_only_call {A} (r : result A) : appends_only Q (call r).
Proof. now apply unchanged. Qed.

Lemma appends_only_raise {A} (e : exn) : appends_only Q (@raise Scraper A e).
Proof. now apply unchanged. Qed.

Lemma appends_only_printing {A} (m : M Stdout A) : appends_only Q (printing m).
Proof.
  apply unchanged. intros s. unfold printing, zoom. now destruct (m (stdout s)).
Qed.

Lemma appends_only_step {A} (s1 s2 : Scraper) (new : list Address) (m : M Scraper A) :
  addresses s1 = addresses s2 ++ new -> Forall Q new -> appends_only Q m ->
  exists new', addresses (snd (m s1)) = addresses s2 ++ new' /\ Forall Q new'.
Proof.
  intros H1 HQ Hm. destruct (Hm s1) as (more & H2 & HQ2).
  exists (new ++ more). rewrite H2, H1, app_assoc.
  split; [reflexivity | now apply Forall_app].
Qed.

Lemma appends_only_bind {A B} (m : M Scraper A) (k : A -> M Scraper B) :
  appends_only Q m -> (forall a, appends_only Q (k a)) -> appends_only Q (mbind k m).
Proof.
  intros Hm Hk s. unfold mbind, M_bind, bind. destruct (Hm s) as (new & H & HQ).
  destruct (m s) as [[a|e] s1]; simpl in H.
  - now apply (appends_only_step s1 s new).
  - exists new. auto.
Qed.

Lemma appends_only_try_except {A} (body : M Scraper A) (classes : list exn)
      (handler : exn -> M Scraper A) :
  appends_only Q body -> (forall e, appends_only Q (handler e)) ->
  appends_only Q (try_except body classes handler).
Proof.
  intros Hb Hh s. unfold try_except. destruct (Hb s) as (new & H & HQ).
  destruct (body s) as [[a|e] s1]; simpl in H; [exists new; auto |].
  destruct (caught_by classes e); [| exists new; auto].
  now apply (appends_only_step s1 s new).
Qed.

Lemma appends_only_for_each {A} (xs : list A) (body : A -> M Scraper unit) :
  (forall x, appends_only Q (body x)) -> appends_only Q (for_each xs body).
Proof.
  intros Hb. induction xs as [|x xs IH]; [apply appends_only_ret |].
  cbn [for_each]. apply (appends_only_bind (body x) (fun _ => for_each xs body));
    [apply Hb | intros _; exact IH].
Qed.

Lemma appends_only_add_address (db : Pycountry) (bfpo_num location : string)
      (postcode country : option string) (bfpo_type : string)
      (box_num : option string) :
  (forall code, Q (address_of bfpo_num location postcode country bfpo_type box_num code)) ->
  appends_only Q (_add_address db bfpo_num location postcode country bfpo_type box_num).
Proof.
  intros HQ s. rewrite AddAddress.add_address_run.
  destruct (resolver_answer db country (stdout s)) as [[code|e] out]; simpl.
  - eexists. split; [reflexivity |]. constructor; [apply HQ | constructor].
  - exists []. rewrite app_nil_r. split; [reflexivity | constructor].
Qed.

Lemma appends_only_for_rows_of (soup : Soup) (sec : section) (title : string)
      (body : list string -> M Scraper unit) :
  (forall row, appends_only Q (body row)) ->
  appends_only Q (for_rows_of soup sec title body).
Proof.
  intros Hb. unfold for_rows_of. destruct (soup sec).
  - apply appends_only_printing.
  - apply appends_only_ret.
  - now apply appends_only_for_each.
Qed.

End AppendsOnly.

Lemma appends_only_weaken {A} (P Q : Address -> Prop) (m : M Scraper A) :
  (forall a, P a -> Q a) -> appends_only P m -> appends_only Q m.
Proof.
  intros HPQ Hm s. destruct (Hm s) as (new & H & HP). exists new.
  split; [exact H |]. eapply Forall_impl; eassumption.
Qed.

(** The countries of the table are not empty, so [_add_address] keeps
    them. *)
Lemma kept_infer (location : string) :
  kept (_infer_country_from_location location) = _infer_country_from_location location.
Proof.
  unfold _infer_country_from_location.
  pose proof (InferFacts.find_first
                (fun entry => Py.contains (fst entry) (Py.lower location))
                country_patterns) as H.
  destruct (List.find _ country_patterns) as [[pattern c]|]; [| reflexivity].
  destruct H as (before & after & Hl & _).
  assert (Hall : Forall (fun entry => Py.truthy (snd entry) = true) country_patterns)
    by (repeat constructor).
  rewrite Hl in Hall. apply Forall_app in Hall as [_ Hall].
  apply Forall_cons in Hall as [Hc _]. unfold kept. simpl in *. now rewrite Hc.
Qed.

Lemma is_blank_kept (postcode : string) :
  kept (if is_blank postcode then None else Some postcode)
  = if is_blank postcode then None else Some postcode.
Proof.
  unfold kept. destruct (is_blank postcode) eqn:E; [reflexivity |].
  destruct postcode; [discriminate E | reflexivity].
Qed.

Section Spreadsheet.

Variable db : Pycountry.

Lemma fcdo_record_of_cells (loc_cell bfpo_cell post_cell : string) (code : option string) :
  is_blank (Py.strip loc_cell) = false ->
  is_blank (Py.strip bfpo_cell) = false ->
  fcdo_record
    (address_of (Py.strip bfpo_cell) (Py.strip loc_cell)
                (if is_blank (Py.strip post_cell) then None else Some (Py.strip post_cell))
                (_infer_country_from_location (Py.strip loc_cell)) "fcdo" None code).
Proof.
  intros Hl Hb. unfold fcdo_record.
  rewrite AddAddress.address_Type, AddAddress.address_BoxNum, AddAddress.address_Loc,
    AddAddress.address_Ctry, AddAddress.address_BfpoNum, AddAddress.address_PstCd,
    kept_infer, is_blank_kept.
  split; [reflexivity |]. split; [reflexivity |].
  split; [exists loc_cell; auto |]. split; [exists bfpo_cell; auto |].
  intros postcode. destruct (is_blank (Py.strip post_cell)) eqn:E; [discriminate |].
  intros [= <-]. split; [exact E | now exists post_cell].
Qed.

Lemma appends_only_parse_fcdo_cells (row : gmap string string)
      (group : string * string * string) :
  appends_only fcdo_record (parse_fcdo_cells db row group).
Proof.
  destruct group as [[loc_col bfpo_col] post_col]. unfold parse_fcdo_cells.
  apply appends_only_try_except; [| intros e; apply appends_only_ret].
  apply appends_only_bind; [apply appends_only_call | intros loc_cell].
  apply appends_only_bind; [apply appends_only_call | intros bfpo_cell].
  apply appends_only_bind; [apply appends_only_call | intros post_cell].
  fold (is_blank (Py.strip post_cell)).
  destruct (String.eqb (Py.strip loc_cell) "nan" || String.eqb (Py.strip loc_cell) ""
            || String.eqb (Py.strip bfpo_cell) "nan" || String.eqb (Py.strip bfpo_cell) "")
    eqn:E; [apply appends_only_ret |].
  apply appends_only_add_address. intros code.
  apply orb_false_elim in E as [E E4]. apply orb_false_elim in E as [E E3].
  apply fcdo_record_of_cells; unfold is_blank; [exact E | now rewrite E3, E4].
Qed.

Lemma appends_only_parse_fcdo_ods (read_excel : string -> result DataFrame)
      (ods_file : string) :
  appends_only fcdo_record (parse_fcdo_ods db read_excel ods_file).
Proof.
  unfold parse_fcdo_ods. apply appends_only_try_except.
  - apply appends_only_bind; [apply appends_only_call | intros df].
    apply appends_only_for_each. intros row. apply appends_only_for_each. intros group.
    apply appends_only_parse_fcdo_cells.
  - intros e. apply appends_only_printing.
Qed.

Ltac section_parser :=
  intros soup; apply appends_only_for_rows_of; intros row;
  destruct row as [|row0 [|row1 [|row2 [|row3 rest]]]];
  try apply appends_only_ret;
  apply appends_only_add_address; intros code;
  first [Invariants.other_type | apply produced_detachment].

Lemma appends_only_scrape_gov_uk_bfpo (fetch : result Soup) :
  appends_only produced (scrape_gov_uk_bfpo db fetch).
Proof.
  unfold scrape_gov_uk_bfpo. apply appends_only_try_except.
  - apply appends_only_bind; [apply appends_only_call | intros soup].
    repeat (apply appends_only_bind; [| intros _]); revert soup.
    all: unfold _parse_germany_locations, _parse_uk_locations, _parse_europe_locations,
      _parse_world_locations, _parse_ships, _parse_naval_parties, _parse_operations,
      _parse_exercises, _parse_isolated_detachments; section_parser.
  - intros e. apply appends_only_bind; [apply appends_only_printing | intros _].
    apply appends_only_raise.
Qed.

Lemma appends_only_collect (env : Environment) (fcdo_ods_file : option string) :
  appends_only produced (collect db env fcdo_ods_file).
Proof.
  unfold collect.
  apply appends_only_bind; [apply appends_only_scrape_gov_uk_bfpo | intros _].
  apply appends_only_bind.
  - destruct (Py.truthy_opt fcdo_ods_file); [apply appends_only_ret |].
    unfold download_fcdo_ods. apply appends_only_try_except.
    + apply appends_only_bind; [apply appends_only_call | intros p; apply appends_only_ret].
    + intros e. apply appends_only_bind; [apply appends_only_printing | intros _].
      apply appends_only_ret.
  - intros [path|]; [| apply appends_only_printing].
    destruct (Py.truthy path); [| apply appends_only_printing].
    destruct (path_exists env path); [| apply appends_only_printing].
    unfold parse_fcdo_ods. apply appends_only_try_except.
    + apply appends_only_bind; [apply appends_only_call | intros df].
      apply appends_only_for_each. intros row. apply appends_only_for_each.
      intros [[loc_col bfpo_col] post_col]. unfold parse_fcdo_cells.
      apply appends_only_try_except; [| intros e; apply appends_only_ret].
      apply appends_only_bind; [apply appends_only_call | intros loc_cell].
      apply appends_only_bind; [apply appends_only_call | intros bfpo_cell].
      apply appends_only_bind; [apply appends_only_call | intros post_cell].
      match goal with |- context [if ?b then ret tt else _] => destruct b end;
        [apply appends_only_ret |].
      apply appends_only_add_address. intros code. Invariants.other_type.
    + intros e. apply appends_only_printing.
Qed.

End Spreadsheet.

End AppendFacts.

(** X11.  Whatever the library does and whatever the spreadsheet holds,
    [parse_fcdo_ods] only appends to the list of addresses, and every
    record it appends is of type [fcdo] without a box number, has for
    location a stripped cell that is neither empty nor [nan], for country
    what [_infer_country_from_location] finds for that location (or none),
    for number a stripped cell that is neither empty nor [nan], with the
    prefix, and a postcode only when the stripped cell is neither empty nor
    [nan]. *)
Theorem fcdo_records_are_clean
        (db : Pycountry) (read_excel : string -> result DataFrame) (ods_file : string)
        (s : Scraper) :
  exists new,
    addresses (snd (BFPOScraperSimple.parse_fcdo_ods db read_excel ods_file s))
    = addresses s ++ new
    /\ Forall fcdo_record new.
Proof. apply AppendFacts.appends_only_parse_fcdo_ods. Qed.

(** X12.  Collecting never removes, changes or moves a record that is
    already in the list: with any library and any environment, and also
    when the collection is aborted by an exception, the list after
    [scrape_gov_uk_bfpo], the download and [parse_fcdo_ods] is the list
    before followed by records of the parsing paths. *)
Theorem collect_only_appends
        (db : Pycountry) (env : Environment) (fcdo_ods_file : option string)
        (s : Scraper) :
  exists new,
    addresses (snd (BFPOScraperSimple.collect db env fcdo_ods_file s))
    = addresses s ++ new
    /\ Forall produced new.
Proof. apply AppendFacts.appends_only_collect. Qed.

(** A spreadsheet with two groups of columns: the rows give one record for
    each group whose location and number are filled in. *)
Example parse_fcdo_ods_sample :
  map (fun a => (summary a, a !! "PstCd", a !! "Ctry", a !! "CtryCd"))
      (addresses (snd (BFPOScraperSimple.parse_fcdo_ods
                         Sample.db (fun _ => Ok Sample.spreadsheet) "fcdo.ods" init)))
  = [ ((Some "fcdo", Some "British Embassy Paris", Some "BFPO 5422"),
       None, Some "France", Some "FR");
      ((Some "fcdo", Some "Ottawa", Some "BFPO 5487"),
       Some "BF1 2AY", Some "Canada", Some "CA") ].
Proof. vm_compute. reflexivity. Qed.

Module PageFacts.

Import BFPOScraperSimple.

Lemma appends_ret : appends (ret tt) [].
Proof. intros s. exists s, []. now rewrite app_nil_r. Qed.

Lemma appends_printing (m : message) : appends (printing (print m)) [].
Proof. intros s. eexists _, []. split; [reflexivity |]. simpl. now rewrite app_nil_r. Qed.

Lemma appends_bind (m k : M Scraper unit)
      (f g : list (option string * option string * option string)) :
  appends m f -> appends k g -> appends (m;; k) (f ++ g).
Proof.
  intros Hm Hk s. unfold mbind, M_bind, bind.
  destruct (Hm s) as (s1 & new1 & -> & H1 & <-).
  destruct (Hk s1) as (s2 & new2 & -> & H2 & <-).
  exists s2, (new1 ++ new2). split; [reflexivity |].
  rewrite H2, H1, app_assoc, map_app. auto.
Qed.

Lemma appends_for_each {A} (xs : list A) (body : A -> M Scraper unit)
      (g : A -> list (option string * option string * option string)) :
  (forall x, appends (body x) (g x)) -> appends (for_each xs body) (flat_map g xs).
Proof.
  intros Hb. induction xs as [|x xs IH]; [apply appends_ret |].
  cbn [for_each flat_map].
  exact (appends_bind (body x) (for_each xs body) _ _ (Hb x) IH).
Qed.

Lemma flat_map_filter {A B} (p : A -> bool) (f : A -> B) (l : list A) :
  flat_map (fun x => if p x then [f x] else []) l = map f (List.filter p l).
Proof.
  induction l as [|x l IH]; [reflexivity |].
  simpl. destruct (p x); simpl; now rewrite IH.
Qed.

Section WithDatabase.

Variable db : Pycountry.
Hypothesis Hwb : well_behaved db.

Lemma appends_add_address (bfpo_num location : string)
      (postcode country : option string) (bfpo_type : string)
      (box_num : option string) :
  appends (_add_address db bfpo_num location postcode country bfpo_type box_num)
          [(Some bfpo_type, Some location, Some (prefixed bfpo_num))].
Proof.
  intros s.
  destruct (Records.add_address_returns db bfpo_num location postcode country bfpo_type
              box_num s Hwb) as (code & out & _ & ->).
  eexists _, [_]. split; [reflexivity |]. split; [reflexivity |].
  unfold summary. simpl.
  now rewrite AddAddress.address_Type, AddAddress.address_Loc, AddAddress.address_BfpoNum.
Qed.

(** A section parser whose loop body uses the rows with enough cells. *)
Lemma appends_for_rows_of (soup : Soup) (sec : section) (title : string)
      (body : list string -> M Scraper unit) :
  (forall row, appends (body row)
                       (if (min_cells sec <=? length row)%nat
                        then [row_summary sec row] else [])) ->
  appends (for_rows_of soup sec title body) (section_summaries soup sec).
Proof.
  intros Hb. unfold for_rows_of, section_summaries, rows_of.
  destruct (soup sec) as [| |rows].
  - apply appends_printing.
  - apply appends_ret.
  - rewrite <- flat_map_filter. now apply appends_for_each.
Qed.

Ltac section_parser :=
  intros soup; apply appends_for_rows_of; intros row;
  destruct row as [|row0 [|row1 [|row2 [|row3 rest]]]];
  try apply appends_ret; apply appends_add_address.

Lemma appends_germany : forall soup,
  appends (_parse_germany_locations db soup) (section_summaries soup Germany).
Proof. section_parser. Qed.

Lemma appends_uk : forall soup,
  appends (_parse_uk_locations db soup) (section_summaries soup UK).
Proof. section_parser. Qed.

Lemma appends_europe : forall soup,
  appends (_parse_europe_locations db soup) (section_summaries soup Europe).
Proof. section_parser. Qed.

Lemma appends_world : forall soup,
  appends (_parse_world_locations db soup) (section_summaries soup World).
Proof. section_parser. Qed.

Lemma appends_ships : forall soup,
  appends (_parse_ships db soup) (section_summaries soup Ships).
Proof. section_parser. Qed.

Lemma appends_naval_parties : forall soup,
  appends (_parse_naval_parties db soup) (section_summaries soup NavalParties).
Proof. section_parser. Qed.

Lemma appends_operations : forall soup,
  appends (_parse_operations db soup) (section_summaries soup Operations).
Proof. section_parser. Qed.

Lemma appends_exercises : forall soup,
  appends (_parse_exercises db soup) (section_summaries soup Exercises).
Proof. section_parser. Qed.

Lemma appends_isolated_detachments : forall soup,
  appends (_parse_isolated_detachments db soup)
          (section_summaries soup IsolatedDetachments).
Proof. section_parser. Qed.

Lemma appends_scrape_gov_uk_bfpo (soup : Soup) :
  appends (scrape_gov_uk_bfpo db (Ok soup)) (page_summaries soup).
Proof.
  assert (H : appends (_parse_germany_locations db soup;;
                       _parse_uk_locations db soup;;
                       _parse_europe_locations db soup;;
                       _parse_world_locations db soup;;
                       _parse_ships db soup;;
                       _parse_naval_parties db soup;;
                       _parse_operations db soup;;
                       _parse_exercises db soup;;
                       _parse_isolated_detachments db soup)
                      (page_summaries soup)).
  { unfold page_summaries, all_sections. cbn [flat_map]. rewrite app_nil_r.
    repeat (apply appends_bind;
            [first [apply appends_germany | apply appends_uk | apply appends_europe
                   | apply appends_world | apply appends_ships
                   | apply appends_naval_parties | apply appends_operations
                   | apply appends_exercises] |]).
    apply appends_isolated_detachments. }
  intros s. destruct (H s) as (s' & new & Hrun & Hnew).
  exists s', new. split; [| exact Hnew].
  unfold scrape_gov_uk_bfpo, try_except, mbind, M_bind, bind, call.
  unfold mbind, M_bind, bind in Hrun. now rewrite Hrun.
Qed.

End WithDatabase.

End PageFacts.

(** X13.  With the page fetched and a library that raises only what the
    resolver catches, [scrape_gov_uk_bfpo] returns and appends one record
    for each row that has enough cells for its section (four for Europe
    and the rest of the world, two for the isolated detachments, three for
    the others), and none for a shorter row or a section that is not
    found.  The records come in the order of the sections and, within a
    section, of the rows; each has the type of its section, the first cell
    as location and the second cell with its prefix as number (BFPO 105
    for an isolated detachment). *)
Theorem scraped_records_follow_the_page (db : Pycountry) (soup : Soup) (s : Scraper) :
  well_behaved db ->
  exists s' new,
    BFPOScraperSimple.scrape_gov_uk_bfpo db (Ok soup) s = (Ok tt, s')
    /\ addresses s' = addresses s ++ new
    /\ map summary new = page_summaries soup.
Proof. intros Hwb. now apply PageFacts.appends_scrape_gov_uk_bfpo. Qed.

Lemma scraped_records_follow_the_page_witness :
  well_behaved Sample.db
  /\ page_summaries Sample.soup
     = [ (Some "navalparty", Some "Ottawa", Some "BFPO 005");
         (Some "detachment", Some "Ramstein", Some "BFPO 105");
         (Some "detachment", Some "Geilenkirchen", Some "BFPO 105") ]
  /\ exists s' new,
       BFPOScraperSimple.scrape_gov_uk_bfpo Sample.db (Ok Sample.soup) init = (Ok tt, s')
       /\ addresses s' = addresses init ++ new
       /\ map summary new = page_summaries Sample.soup.
Proof.
  split; [exact ResolverFacts.sample_db_well_behaved |].
  split; [reflexivity |].
  exact (scraped_records_follow_the_page Sample.db Sample.soup init
           ResolverFacts.sample_db_well_behaved).
Defined.

Module GenerateFacts.

Import BFPOScraperSimple.





End GenerateFacts.


